(** * best-cave maintenance scripts: a shallow embedding

    The three scripts under [Tool/] keep a JSON index of "caves" (records
    with media attachments) in step with a directory of media files:

    - [FixIndexAndAddTime.py]  renames every attachment to the canonical
      name [{id}-{index}_{channelId}-{userId}_{timestampMs}{ext}];
    - [FixExtension.py]        corrects file extensions from the detected
      content type;
    - [convert.py]             converts the old schema to the new one and
      renames image and video files on the way.

    Python values are modelled by their JSON shape, dictionaries by
    [gmap], the operating system by an interface ([OS]) with one sample
    instance, exceptions by an explicit result type. *)

From Stdlib Require Import ZArith Ascii String List Bool Lia.
From Stdlib Require Import DecimalString.
From stdpp Require Import base option list gmap strings.

Local Open Scope string_scope.
Local Open Scope Z_scope.

(** ** Python values and string primitives *)

Module Py.

(** A JSON scalar as [json.load] returns it.  Floating point numbers do
    not occur in the identifiers and file names the scripts read and
    are left out. *)
Inductive atom : Type :=
| ANone
| ABool (b : bool)
| AInt (z : Z)
| AStr (s : string).

#[global] Instance atom_eq_dec : EqDecision atom.
Proof. solve_decision. Defined.

(** The exceptions the scripts can meet. *)
Inductive exn : Type :=
| KeyError (key : string)
| TypeError
| AttributeError
| ValueError
| OSError
| EOFError.

(** [str(int)] *)
Definition str_of_Z (z : Z) : string := NilZero.string_of_int (Z.to_int z).

(** What an f-string replacement field [{x}] prints. *)
Definition str (a : atom) : string :=
  match a with
  | ANone => "None"
  | ABool true => "True"
  | ABool false => "False"
  | AInt z => str_of_Z z
  | AStr s => s
  end.

(** [bool(x)]: [None], [False], [0] and [''] are falsy. *)
Definition truthy (a : atom) : bool :=
  match a with
  | ANone => false
  | ABool b => b
  | AInt z => negb (z =? 0)
  | AStr s => negb (String.eqb s "")
  end.

(** [bool(d.get(k))]: an absent key gives [None]. *)
Definition truthy_opt (o : option atom) : bool :=
  match o with
  | Some a => truthy a
  | None => false
  end.

(** [all(xs)] *)
Definition all (xs : list bool) : bool := forallb (fun b => b) xs.

(** [x in [s1, ..., sn]] for a list of string literals: only a string
    compares equal to a string. *)
Definition in_strs (o : option atom) (l : list string) : bool :=
  match o with
  | Some (AStr s) => existsb (String.eqb s) l
  | _ => false
  end.

(** [ch.lower()] on a byte: the ASCII letters; the bytes of a UTF-8
    encoded character outside ASCII are kept. *)
Definition lower_ascii (c : ascii) : ascii :=
  let n := nat_of_ascii c in
  if ((65 <=? n) && (n <=? 90))%nat then ascii_of_nat (n + 32) else c.

(** [s.lower()] *)
Fixpoint lower (s : string) : string :=
  match s with
  | EmptyString => EmptyString
  | String c s' => String (lower_ascii c) (lower s')
  end.

(** [s.rfind(c)] for a one character needle: the last index, or -1. *)
Fixpoint rfind_from (c : ascii) (s : string) (i last : Z) : Z :=
  match s with
  | EmptyString => last
  | String a s' => rfind_from c s' (i + 1) (if Ascii.eqb a c then i else last)
  end.

Definition rfind (c : ascii) (s : string) : Z := rfind_from c s 0 (-1).

(** [s[:k]] and [s[k:]] for [0 <= k]. *)
Fixpoint str_take (k : nat) (s : string) : string :=
  match k, s with
  | S k', String c s' => String c (str_take k' s')
  | _, _ => EmptyString
  end.

Fixpoint str_drop (k : nat) (s : string) : string :=
  match k, s with
  | S k', String _ s' => str_drop k' s'
  | _, _ => s
  end.

(** [s[i:j]] for [0 <= i <= j]. *)
Definition slice (s : string) (i j : Z) : string :=
  str_take (Z.to_nat (j - i)) (str_drop (Z.to_nat i) s).

(** [s.endswith('Z')] and friends. *)
Definition endswith (s suffix : string) : bool :=
  let n := String.length s in
  let m := String.length suffix in
  (m <=? n)%nat && String.eqb (str_drop (n - m) s) suffix.

Definition startswith (s pre : string) : bool := String.prefix pre s.

(** [s.find(c)] for a one character needle: the first index, or -1. *)
Fixpoint find_from (c : ascii) (s : string) (i : Z) : Z :=
  match s with
  | EmptyString => -1
  | String a s' => if Ascii.eqb a c then i else find_from c s' (i + 1)
  end.

Definition find (c : ascii) (s : string) : Z := find_from c s 0.

(** A computation that returns or raises. *)
Inductive res (A : Type) : Type :=
| Ret (a : A)
| Exc (e : exn).
Arguments Ret {A} a.
Arguments Exc {A} e.

Definition bind {A B : Type} (r : res A) (k : A -> res B) : res B :=
  match r with
  | Ret a => k a
  | Exc e => Exc e
  end.

(** [if not cond: raise e] *)
Definition require (cond : bool) (e : exn) : res unit :=
  if cond then Ret tt else Exc e.

End Py.

Declare Scope py_scope.
Delimit Scope py_scope with py.
Notation "'do' x <- c ; k" := (Py.bind c (fun x => k))
  (at level 10, x name, c at level 100, k at level 200) : py_scope.
Notation "'check' b 'orelse' e ; k" := (Py.bind (Py.require b e) (fun _ => k))
  (at level 10, b at level 100, e at level 9, k at level 200) : py_scope.

(** ** [os.path] on POSIX *)

Module OsPath.
Import Py.

(** [posixpath.join(a, b)] for two components. *)
Definition join (a b : string) : string :=
  if startswith b "/" then b
  else if String.eqb a "" || endswith a "/" then a +:+ b
  else a +:+ "/" +:+ b.

(** The [while] loop of [genericpath._splitext], which skips the leading
    dots of the last component.  [true]: a character other than the dot
    stands before [dotIndex], the path has an extension.  The loop runs
    at most [dotIndex - filenameIndex] times, which is the fuel. *)
Fixpoint skip_leading_dots (fuel : nat) (p : string)
    (filenameIndex dotIndex : Z) : bool :=
  match fuel with
  | O => false
  | S fuel' =>
      if filenameIndex <? dotIndex then
        if negb (String.eqb (slice p filenameIndex (filenameIndex + 1)) ".")
        then true
        else skip_leading_dots fuel' p (filenameIndex + 1) dotIndex
      else false
  end.

(** [os.path.splitext(p)] *)
Definition splitext (p : string) : string * string :=
  let sepIndex := rfind "/" p in
  let dotIndex := rfind "." p in
  if (sepIndex <? dotIndex)
     && skip_leading_dots (Z.to_nat (dotIndex - (sepIndex + 1))) p
          (sepIndex + 1) dotIndex
  then (str_take (Z.to_nat dotIndex) p, str_drop (Z.to_nat dotIndex) p)
  else (p, "").

(** [os.path.basename(p)] *)
Definition basename (p : string) : string :=
  str_drop (Z.to_nat (rfind "/" p + 1)) p.

End OsPath.

(** ** [datetime]: the part [convert_iso_to_ms_timestamp] calls

    [datetime.fromisoformat] as the interpreters before 3.11 have it,
    which is why the script turns a final [Z] into [+00:00] first:
    [YYYY-MM-DD[*HH[:MM[:SS[.fff[fff]]]][+HH:MM[:SS[.ffffff]]]]], fields of
    decimal digits.  [datetime.timestamp] goes through binary64; the two
    roundings are computed exactly on integers. *)

Module DateTime.
Import Py.
Local Open Scope py_scope.

Definition is_digit (c : ascii) : bool :=
  let n := nat_of_ascii c in ((48 <=? n) && (n <=? 57))%nat.

Fixpoint digits_value (s : string) (acc : Z) : option Z :=
  match s with
  | EmptyString => Some acc
  | String c s' =>
      if is_digit c
      then digits_value s' (10 * acc + Z.of_nat (nat_of_ascii c - 48))
      else None
  end.

(** [int(s)] on a field of the format. *)
Definition int_of (s : string) : res Z :=
  match s with
  | EmptyString => Exc ValueError
  | _ => match digits_value s 0 with
         | Some z => Ret z
         | None => Exc ValueError
         end
  end.

Definition len (s : string) : Z := Z.of_nat (String.length s).

(** [_parse_isoformat_date] on [dtstr = date_string[0:10]] *)
Definition parse_isoformat_date (dtstr : string) : res (Z * Z * Z) :=
  do year <- int_of (slice dtstr 0 4);
  check String.eqb (slice dtstr 4 5) "-" orelse ValueError;
  do month <- int_of (slice dtstr 5 7);
  check String.eqb (slice dtstr 7 8) "-" orelse ValueError;
  do day <- int_of (slice dtstr 8 10);
  Ret (year, month, day).

(** The [for comp in range(0, 3)] loop of [_parse_hh_mm_ss_ff]: the
    fields read so far, in reverse, and the position after them. *)
Fixpoint parse_hms (n : nat) (comp : Z) (tstr : string) (pos : Z)
    (acc : list Z) : res (list Z * Z) :=
  match n with
  | O => Ret (acc, pos)
  | S n' =>
      check 2 <=? len tstr - pos orelse ValueError;
      do v <- int_of (slice tstr pos (pos + 2));
      let pos := pos + 2 in
      let next_char := slice tstr pos (pos + 1) in
      if String.eqb next_char "" || (2 <=? comp) then Ret (v :: acc, pos)
      else
        check String.eqb next_char ":" orelse ValueError;
        parse_hms n' (comp + 1) tstr (pos + 1) (v :: acc)
  end.

(** [_parse_hh_mm_ss_ff]: hour, minute, second, microsecond. *)
Definition parse_hh_mm_ss_ff (tstr : string) : res (Z * Z * Z * Z) :=
  do r <- parse_hms 3 0 tstr 0 [];
  let '(acc, pos) := r in
  let '(h, m, s) :=
    match acc with
    | [h] => (h, 0, 0)
    | [m; h] => (h, m, 0)
    | [s; m; h] => (h, m, s)
    | _ => (0, 0, 0)
    end in
  if pos <? len tstr then
    check String.eqb (slice tstr pos (pos + 1)) "." orelse ValueError;
    let pos := pos + 1 in
    let len_remainder := len tstr - pos in
    check (len_remainder =? 3) || (len_remainder =? 6) orelse ValueError;
    do f <- int_of (slice tstr pos (len tstr));
    Ret (h, m, s, if len_remainder =? 3 then f * 1000 else f)
  else Ret (h, m, s, 0).

(** A [timedelta] in microseconds. *)
Definition micros (h m s us : Z) : Z :=
  ((h * 3600 + m * 60 + s) * 1000000) + us.

Definition day_us : Z := 86400 * 1000000.

(** [_parse_isoformat_time]: the time fields and the UTC offset
    ([None]: no offset written, a naive time). *)
Definition parse_isoformat_time (tstr : string)
    : res (Z * Z * Z * Z * option Z) :=
  check 2 <=? len tstr orelse ValueError;
  let tz_pos :=
    if find "-" tstr + 1 =? 0 then find "+" tstr + 1 else find "-" tstr + 1 in
  let timestr := if 0 <? tz_pos then slice tstr 0 (tz_pos - 1) else tstr in
  do tc <- parse_hh_mm_ss_ff timestr;
  if 0 <? tz_pos then
    let tzstr := slice tstr tz_pos (len tstr) in
    check (len tzstr =? 5) || (len tzstr =? 8) || (len tzstr =? 15)
      orelse ValueError;
    do zc <- parse_hh_mm_ss_ff tzstr;
    let '(zh, zm, zs, zf) := zc in
    if (zh =? 0) && (zm =? 0) && (zs =? 0) && (zf =? 0) then Ret (tc, Some 0)
    else
      let tzsign := if String.eqb (slice tstr (tz_pos - 1) tz_pos) "-"
                    then -1 else 1 in
      let td := micros zh zm zs zf in
      (* timezone(offset): strictly between -24 and 24 hours *)
      check td <? day_us orelse ValueError;
      Ret (tc, Some (tzsign * td))
  else Ret (tc, None).

Record datetime : Type := mk_datetime {
  year : Z; month : Z; day : Z;
  hour : Z; minute : Z; second : Z; microsecond : Z;
  utcoffset : option Z
}.

Definition is_leap (y : Z) : bool :=
  (y mod 4 =? 0) && (negb (y mod 100 =? 0) || (y mod 400 =? 0)).

Definition DAYS_IN_MONTH : list Z :=
  [-1; 31; 28; 31; 30; 31; 30; 31; 31; 30; 31; 30; 31].

Definition days_in_month (y m : Z) : Z :=
  if (m =? 2) && is_leap y then 29
  else nth (Z.to_nat m) DAYS_IN_MONTH 0.

(** The range checks of the [datetime] constructor. *)
Definition check_fields (d : datetime) : res datetime :=
  check (1 <=? year d) && (year d <=? 9999) orelse ValueError;
  check (1 <=? month d) && (month d <=? 12) orelse ValueError;
  check (1 <=? day d) && (day d <=? days_in_month (year d) (month d))
    orelse ValueError;
  check (hour d <=? 23) && (minute d <=? 59) && (second d <=? 59)
        && (microsecond d <=? 999999) orelse ValueError;
  Ret d.

(** [datetime.fromisoformat] *)
Definition fromisoformat (date_string : string) : res datetime :=
  let dstr := slice date_string 0 10 in
  let tstr := str_drop 11 date_string in
  do ymd <- parse_isoformat_date dstr;
  let '(y, mo, d) := ymd in
  do tc <- (if String.eqb tstr "" then Ret (0, 0, 0, 0, None)
            else parse_isoformat_time tstr);
  let '(h, mi, s, us, tz) := tc in
  check_fields (mk_datetime y mo d h mi s us tz).

Definition days_before_year (y : Z) : Z :=
  let y1 := y - 1 in y1 * 365 + y1 / 4 - y1 / 100 + y1 / 400.

Definition DAYS_BEFORE_MONTH : list Z :=
  [-1; 0; 31; 59; 90; 120; 151; 181; 212; 243; 273; 304; 334].

Definition days_before_month (y m : Z) : Z :=
  nth (Z.to_nat m) DAYS_BEFORE_MONTH 0
  + (if (2 <? m) && is_leap y then 1 else 0).

(** [date.toordinal]: 1 for 0001-01-01. *)
Definition toordinal (d : datetime) : Z :=
  days_before_year (year d) + days_before_month (year d) (month d) + day d.

(** [toordinal] of 1970-01-01. *)
Definition EPOCH_ordinal : Z := 719163.

(** [self - _EPOCH] for an aware [self], in microseconds. *)
Definition micros_since_epoch (d : datetime) (offset : Z) : Z :=
  (toordinal d - EPOCH_ordinal) * day_us
  + micros (hour d) (minute d) (second d) (microsecond d) - offset.

(** The binary64 number nearest to [n / d], for [0 < n] and [0 < d], ties
    to even, as a mantissa [m] and an exponent [e]: the value is
    [m * 2^e] with [2^52 <= m <= 2^53].  The magnitudes that occur here
    are far from the subnormal and the overflow range. *)
Definition scaled_quot (n d e : Z) : Z * Z :=
  (* quotient and remainder of [n / (d * 2^e)] *)
  if 0 <=? e then (n / (d * 2 ^ e), d * 2 ^ e)
  else (n * 2 ^ (- e) / d, d).

Definition scaled_rem (n d e : Z) : Z :=
  if 0 <=? e then n mod (d * 2 ^ e) else (n * 2 ^ (- e)) mod d.

Definition round_b64 (n d : Z) : Z * Z :=
  let e0 := Z.log2 n - Z.log2 d - 52 in
  let e := if fst (scaled_quot n d e0) <? 2 ^ 52 then e0 - 1 else e0 in
  let '(q, den) := scaled_quot n d e in
  let r := scaled_rem n d e in
  let up := (den <? 2 * r) || ((den =? 2 * r) && Z.odd q) in
  (if up then q + 1 else q, e).

(** [int(x * 1000)] for the binary64 [x] nearest to [us / 10^6]. *)
Definition ms_of_micros_pos (us : Z) : Z :=
  let '(m, e) := round_b64 us 1000000 in
  (* x * 1000, rounded again *)
  let '(m', e') :=
    if 0 <=? e then round_b64 (m * 1000 * 2 ^ e) 1
    else round_b64 (m * 1000) (2 ^ (- e)) in
  (* int(): truncation *)
  if 0 <=? e' then m' * 2 ^ e' else m' / 2 ^ (- e').

Definition ms_of_micros (us : Z) : Z :=
  if us =? 0 then 0
  else if 0 <? us then ms_of_micros_pos us
  else - ms_of_micros_pos (- us).

End DateTime.

(** ** The document *)

Module Doc.
Import Py.

(** An attachment ("element") and the scalar fields of a record are
    dictionaries from keys to JSON scalars. *)
Abbreviation dict := (gmap string atom).

(** A record ("cave"): its scalar fields and, under the key [elements]
    when present, the list of its attachments. *)
Record cave : Type := mk_cave {
  fields : dict;
  elements : option (list dict)
}.

(** [cave.get('elements', [])] *)
Definition get_elements (c : cave) : list dict := default [] (elements c).

(** [d[k]] *)
Definition getitem (d : dict) (k : string) : res atom :=
  match d !! k with
  | Some a => Ret a
  | None => Exc (KeyError k)
  end.

(** [d.get(k, dflt)] *)
Definition get (d : dict) (k : string) (dflt : atom) : atom :=
  default dflt (d !! k).

(** [k in d] *)
Definition contains (d : dict) (k : string) : bool := bool_decide (is_Some (d !! k)).

#[global] Instance atom_countable : Countable atom.
Proof.
  refine (inj_countable'
    (fun a => match a with
              | ANone => inl tt
              | ABool b => inr (inl b)
              | AInt z => inr (inr (inl z))
              | AStr s => inr (inr (inr s))
              end)
    (fun x => match x with
              | inl _ => ANone
              | inr (inl b) => ABool b
              | inr (inr (inl z)) => AInt z
              | inr (inr (inr s)) => AStr s
              end) _).
  by intros [].
Defined.

(** What [json.load] returns and [json.dump] takes: a list of records,
    or the [userId -> channelId] object of the conversion script.  As
    keys of a Python dictionary [True] and [1] are the same key, and so
    are [False] and [0]. *)
Inductive json_text : Type :=
| JsonDoc (d : list cave)
| JsonMap (m : gmap atom atom).

Definition key_of (a : atom) : atom :=
  match a with
  | ABool b => AInt (if b then 1 else 0)
  | _ => a
  end.

End Doc.

(** ** The operating system, as the scripts see it *)

Module Os.
Import Py Doc.

(** [filetype.guess(path)]: an exception, [None], or a kind with its
    extension (without the dot). *)
Inductive guess_result : Type :=
| GuessRaises
| GuessNone
| GuessKind (extension : string).

(** [open(path)] followed by [json.load]. *)
Inductive load_result : Type :=
| FileNotFound
| JSONDecodeError
| Loaded (j : json_text).

(** A failing call raises and leaves the file system as it was. *)
Class OS (FS : Type) : Type := {
  path_exists : FS -> string -> bool;
  path_isdir : FS -> string -> bool;
  rename : FS -> string -> string -> option FS;
  makedirs : FS -> string -> option FS;
  filetype_guess : FS -> string -> guess_result;
  json_load : FS -> string -> load_result;
  json_dump : FS -> string -> json_text -> option FS
}.

(** The calls that can change the file system, as they were made. *)
Inductive call : Type :=
| CallRename (src dst : string) (ok : bool)
| CallMakedirs (path : string) (ok : bool)
| CallDump (path : string) (j : json_text) (ok : bool).

(** A line of the console trace. *)
Inductive msg : Type :=
| MsgNoJson (path : string)
| MsgNoDir (path : string)
| MsgBadJson (path : string)
| MsgRenamed (old new : string)
| MsgMissing (name : string)
| MsgUndetectable (name : string)
| MsgCorrect (name : string)
| MsgFileError (name : atom) (e : exn)
| MsgEntryKeyError (e : exn)
| MsgEntryError (id : atom) (e : exn)
| MsgItemSkipped
| MsgPrompt (user_id user_name : atom)
| MsgInterrupted
| MsgSaved (path : string)
| MsgNothingToSave
| MsgSaveFailed
| MsgSummary (counts : list Z).

Record world (FS : Type) : Type := mk_world {
  fs : FS;
  trace : list call;
  console : list msg
}.
Arguments mk_world {FS} fs trace console.
Arguments fs {FS} w.
Arguments trace {FS} w.
Arguments console {FS} w.

Section Calls.
Context {FS : Type} `{OS FS}.

Definition print (m : msg) (w : world FS) : world FS :=
  mk_world (fs w) (trace w) (console w ++ [m]).

(** [os.rename(src, dst)] *)
Definition do_rename (src dst : string) (w : world FS) : world FS * bool :=
  match rename (fs w) src dst with
  | Some fs' => (mk_world fs' (trace w ++ [CallRename src dst true]) (console w), true)
  | None => (mk_world (fs w) (trace w ++ [CallRename src dst false]) (console w), false)
  end.

(** [os.makedirs(path)] *)
Definition do_makedirs (path : string) (w : world FS) : world FS * bool :=
  match makedirs (fs w) path with
  | Some fs' => (mk_world fs' (trace w ++ [CallMakedirs path true]) (console w), true)
  | None => (mk_world (fs w) (trace w ++ [CallMakedirs path false]) (console w), false)
  end.

(** [with open(path, 'w') as f: json.dump(j, f)] *)
Definition do_dump (path : string) (j : json_text) (w : world FS)
    : world FS * bool :=
  match json_dump (fs w) path j with
  | Some fs' => (mk_world fs' (trace w ++ [CallDump path j true]) (console w), true)
  | None => (mk_world (fs w) (trace w ++ [CallDump path j false]) (console w), false)
  end.
End Calls.

End Os.

(** ** [FixIndexAndAddTime.py] *)

Module FixIndexAndAddTime.
Import Py Doc Os OsPath.
Local Open Scope py_scope.

(** [convert_iso_to_ms_timestamp] *)
Definition convert_iso_to_ms_timestamp (iso_string : string) : res Z :=
  let iso_string :=
    if endswith iso_string "Z"
    then str_take (String.length iso_string - 1) iso_string +:+ "+00:00"
    else iso_string in
  do dt_object <- DateTime.fromisoformat iso_string;
  let offset := default 0 (DateTime.utcoffset dt_object) in
  Ret (DateTime.ms_of_micros (DateTime.micros_since_epoch dt_object offset)).

(** The metadata read at the head of the [try] block. *)
Record meta : Type := mk_meta {
  cave_id : atom;
  channel_id : atom;
  user_id : atom;
  timestamp_ms : Z
}.

Definition read_meta (cave : dict) : res meta :=
  do cave_id <- getitem cave "id";
  let channel_id := get cave "channelId" (AStr "unknown") in
  let user_id := get cave "userId" (AStr "unknown") in
  do time_str <- getitem cave "time";
  do timestamp_ms <-
    match time_str with
    | AStr s => convert_iso_to_ms_timestamp s
    | _ => Exc AttributeError
    end;
  Ret (mk_meta cave_id channel_id user_id timestamp_ms).

(** The f-string of line 72. *)
Definition new_filename (m : meta) (media_index : Z) (extension : string)
    : string :=
  str (cave_id m) +:+ "-" +:+ str_of_Z media_index +:+ "_"
  +:+ str (channel_id m) +:+ "-" +:+ str (user_id m) +:+ "_"
  +:+ str_of_Z (timestamp_ms m) +:+ extension.

(** The guard of line 65. *)
Definition is_media (element : dict) : bool :=
  contains element "file"
  && in_strs (element !! "type") ["image"; "video"; "audio"; "file"; "gif"].

(** The counters of one call. *)
Record counters : Type := mk_counters {
  total_renamed : Z;
  total_skipped : Z;
  updated_json_entries : Z
}.

(** How the body of the inner loop left one element. *)
Inductive outcome : Type :=
| NotMedia
| Renamed (old new : string)
| Missing (old : string)
| Raised (e : exn).

Section WithOS.
Context {FS : Type} `{OS FS}.

(** The local variables of the loop over [elements]. *)
Record locals : Type := mk_locals {
  media_index : Z;
  entry_updated : bool;
  counts : counters;
  w : world FS
}.

(** The body of the inner loop (lines 65 to 89) on one element. *)
Definition step (base_dir : string) (m : meta) (element : dict)
    (l : locals) : dict * locals * outcome :=
  if is_media element then
    let media_index := media_index l + 1 in
    match element !! "file" with
    | Some (AStr old_filename) =>
        let extension := snd (splitext old_filename) in
        let new_filename := new_filename m media_index extension in
        let old_path := join base_dir old_filename in
        let new_path := join base_dir new_filename in
        if path_exists (fs (w l)) old_path then
          match do_rename old_path new_path (w l) with
          | (w', true) =>
              (<["file" := AStr new_filename]> element,
               mk_locals media_index true
                 (mk_counters (total_renamed (counts l) + 1)
                    (total_skipped (counts l))
                    (updated_json_entries (counts l)))
                 (print (MsgRenamed old_filename new_filename) w'),
               Renamed old_filename new_filename)
          | (w', false) =>
              (element, mk_locals media_index (entry_updated l) (counts l) w',
               Raised OSError)
          end
        else
          (element,
           mk_locals media_index (entry_updated l)
             (mk_counters (total_renamed (counts l))
                (total_skipped (counts l) + 1)
                (updated_json_entries (counts l)))
             (print (MsgMissing old_filename) (w l)),
           Missing old_filename)
    | _ =>
        (* os.path.splitext of a value that is no string *)
        (element, mk_locals media_index (entry_updated l) (counts l) (w l),
         Raised TypeError)
    end
  else (element, l, NotMedia).

(** The inner loop; an exception leaves it at once and the elements
    after the failing one are not visited. *)
Fixpoint for_elements (base_dir : string) (m : meta) (els : list dict)
    (l : locals) : list dict * locals * option exn :=
  match els with
  | [] => ([], l, None)
  | element :: rest =>
      match step base_dir m element l with
      | (element', l', Raised e) => (element' :: rest, l', Some e)
      | (element', l', _) =>
          let '(rest', l'', r) := for_elements base_dir m rest l' in
          (element' :: rest', l'', r)
      end
  end.

(** One turn of the outer loop: the [try] block and its handlers. *)
Definition process_cave (base_dir : string) (cave : Doc.cave)
    (c : counters) (w0 : world FS) : Doc.cave * counters * world FS :=
  match read_meta (fields cave) with
  | Exc (KeyError k) => (cave, c, print (MsgEntryKeyError (KeyError k)) w0)
  | Exc e =>
      (cave, c, print (MsgEntryError (get (fields cave) "id" (AStr "N/A")) e) w0)
  | Ret m =>
      let '(els', l, r) :=
        for_elements base_dir m (get_elements cave) (mk_locals 0 false c w0) in
      let cave' :=
        mk_cave (fields cave)
          (match elements cave with Some _ => Some els' | None => None end) in
      match r with
      | None =>
          (cave',
           mk_counters (total_renamed (counts l)) (total_skipped (counts l))
             (if entry_updated l then updated_json_entries (counts l) + 1
              else updated_json_entries (counts l)),
           w l)
      | Some (KeyError k) =>
          (cave', counts l, print (MsgEntryKeyError (KeyError k)) (w l))
      | Some e =>
          (cave', counts l,
           print (MsgEntryError (get (fields cave) "id" (AStr "N/A")) e) (w l))
      end
  end.

Fixpoint for_caves (base_dir : string) (data : list cave)
    (c : counters) (w0 : world FS) : list cave * counters * world FS :=
  match data with
  | [] => ([], c, w0)
  | cave :: rest =>
      let '(cave', c', w') := process_cave base_dir cave c w0 in
      let '(rest', c'', w'') := for_caves base_dir rest c' w' in
      (cave' :: rest', c'', w'')
  end.

(** [rename_files_and_update_json]: [None] when the directory is
    missing, the updated [data] otherwise. *)
Definition rename_files_and_update_json (data : list cave)
    (base_dir : string) (w0 : world FS)
    : option (list cave) * counters * world FS :=
  if negb (path_isdir (fs w0) base_dir)
  then (None, mk_counters 0 0 0, print (MsgNoDir base_dir) w0)
  else
    let '(data', c, w') := for_caves base_dir data (mk_counters 0 0 0) w0 in
    (Some data', c,
     print (MsgSummary [total_renamed c; updated_json_entries c; total_skipped c]) w').

(** How the script ended. *)
Inductive exit : Type :=
| Done (c : counters)
| Diagnosed
| Crashed.

(** The [__main__] block. *)
Definition main (input_json_path output_json_path media_dir : string)
    (w0 : world FS) : exit * world FS :=
  if negb (path_exists (fs w0) input_json_path)
  then (Diagnosed, print (MsgNoJson input_json_path) w0)
  else if negb (path_isdir (fs w0) media_dir)
  then (Diagnosed, print (MsgNoDir media_dir) w0)
  else
    match json_load (fs w0) input_json_path with
    | Loaded (JsonDoc cave_data) =>
        match rename_files_and_update_json cave_data media_dir w0 with
        | (Some updated_data, c, w') =>
            (* [if updated_data:] a list is true when it is not empty *)
            match updated_data with
            | [] => (Done c, w')
            | _ :: _ =>
                match do_dump output_json_path (JsonDoc updated_data) w' with
                | (w'', true) => (Done c, print (MsgSaved output_json_path) w'')
                | (w'', false) => (Crashed, w'')
                end
            end
        | (None, c, w') => (Done c, w')
        end
    | Loaded (JsonMap m) =>
        (* the loop runs over the keys of the object: on a string,
           [cave['id']] raises and so does the handler *)
        if bool_decide (m = ∅)
        then (Done (mk_counters 0 0 0), print (MsgSummary [0; 0; 0]) w0)
        else (Crashed, w0)
    | _ =>
        (* open or json.load raises and nothing catches it *)
        (Crashed, w0)
    end.

End WithOS.
End FixIndexAndAddTime.

(** ** [FixExtension.py] *)

Module FixExtension.
Import Py Doc Os OsPath.

Record counters : Type := mk_counters {
  total_corrected : Z;
  total_skipped : Z
}.

(** How the body of the inner loop left one element. *)
Inductive outcome : Type :=
| NoFile
| Corrected (old new : string)
| AlreadyCorrect (name : string)
| Missing (name : string)
| Undetectable (name : string)
| Failed (e : exn)
| Uncaught (e : exn).

Section WithOS.
Context {FS : Type} `{OS FS}.

Definition skip (c : counters) : counters :=
  mk_counters (total_corrected c) (total_skipped c + 1).

(** Lines 49 to 94 on one element.  [os.path.join] stands before the
    [try]: what it raises is not caught. *)
Definition step (files_base_dir : string) (element : dict)
    (c : counters) (w : world FS) : dict * counters * world FS * outcome :=
  match element !! "file" with
  | None => (element, c, w, NoFile)
  | Some (AStr original_filename) =>
      let current_path := join files_base_dir original_filename in
      if negb (path_exists (fs w) current_path) then
        (element, skip c, print (MsgMissing original_filename) w,
         Missing original_filename)
      else
        match filetype_guess (fs w) current_path with
        | GuessRaises =>
            (element, skip c,
             print (MsgFileError (AStr original_filename) OSError) w,
             Failed OSError)
        | GuessNone =>
            (element, skip c, print (MsgUndetectable original_filename) w,
             Undetectable original_filename)
        | GuessKind extension =>
            let correct_extension := "." +:+ extension in
            let '(filename_root, current_extension) :=
              splitext original_filename in
            if negb (String.eqb (lower current_extension)
                                (lower correct_extension)) then
              let new_filename := filename_root +:+ correct_extension in
              let new_path := join files_base_dir new_filename in
              match do_rename current_path new_path w with
              | (w', true) =>
                  (<["file" := AStr new_filename]> element,
                   mk_counters (total_corrected c + 1) (total_skipped c),
                   print (MsgRenamed original_filename new_filename) w',
                   Corrected original_filename new_filename)
              | (w', false) =>
                  (element, skip c,
                   print (MsgFileError (AStr original_filename) OSError) w',
                   Failed OSError)
              end
            else
              (element, c, print (MsgCorrect original_filename) w,
               AlreadyCorrect original_filename)
        end
  | Some _ => (element, c, w, Uncaught TypeError)
  end.

Fixpoint for_elements (files_base_dir : string) (els : list dict)
    (c : counters) (w : world FS)
    : list dict * counters * world FS * option exn :=
  match els with
  | [] => ([], c, w, None)
  | element :: rest =>
      match step files_base_dir element c w with
      | (element', c', w', Uncaught e) => (element' :: rest, c', w', Some e)
      | (element', c', w', _) =>
          let '(rest', c'', w'', r) := for_elements files_base_dir rest c' w' in
          (element' :: rest', c'', w'', r)
      end
  end.

(** The outer loop.  An empty or absent [elements] is passed over. *)
Fixpoint for_caves (files_base_dir : string) (cave_data : list cave)
    (c : counters) (w : world FS)
    : list cave * counters * world FS * option exn :=
  match cave_data with
  | [] => ([], c, w, None)
  | cave :: rest =>
      match get_elements cave with
      | [] =>
          let '(rest', c', w', r) := for_caves files_base_dir rest c w in
          (cave :: rest', c', w', r)
      | elements =>
          match for_elements files_base_dir elements c w with
          | (els', c', w', Some e) =>
              (mk_cave (fields cave) (Some els') :: rest, c', w', Some e)
          | (els', c', w', None) =>
              let '(rest', c'', w'', r) := for_caves files_base_dir rest c' w' in
              (mk_cave (fields cave) (Some els') :: rest', c'', w'', r)
          end
      end
  end.

Inductive exit : Type :=
| Done (c : counters)
| Diagnosed
| Crashed.

(** [correct_files_and_update_json]; with the exit, the document as
    it stands in memory at the end, when one was loaded. *)
Definition correct_files_and_update_json (json_file_path : string)
    (files_base_dir : string) (w0 : world FS)
    : exit * option (list cave) * world FS :=
  if negb (path_exists (fs w0) json_file_path)
  then (Diagnosed, None, print (MsgNoJson json_file_path) w0)
  else if negb (path_isdir (fs w0) files_base_dir)
  then (Diagnosed, None, print (MsgNoDir files_base_dir) w0)
  else
    match json_load (fs w0) json_file_path with
    | FileNotFound => (Crashed, None, w0)
    | JSONDecodeError => (Diagnosed, None, print (MsgBadJson json_file_path) w0)
    | Loaded (JsonMap m) =>
        (* the loop runs over the keys: [cave.get] on a string raises *)
        if bool_decide (m = ∅)
        then (Done (mk_counters 0 0), None,
              print (MsgSummary [0; 0]) (print MsgNothingToSave w0))
        else (Crashed, None, w0)
    | Loaded (JsonDoc cave_data) =>
        match for_caves files_base_dir cave_data (mk_counters 0 0) w0 with
        | (data', c, w', Some e) => (Crashed, Some data', w')
        | (data', c, w', None) =>
            let w'' :=
              if 0 <? total_corrected c then
                match do_dump json_file_path (JsonDoc data') w' with
                | (w'', true) => print (MsgSaved json_file_path) w''
                | (w'', false) => print MsgSaveFailed w''
                end
              else print MsgNothingToSave w' in
            (Done c, Some data',
             print (MsgSummary [total_corrected c; total_skipped c]) w'')
        end
    end.

End WithOS.
End FixExtension.

(** ** [convert.py] *)

Module Convert.
Import Py Doc Os OsPath.

(** What [input()] meets on the terminal: a line, or Ctrl-C.  When the
    lines are used up, [input()] raises [EOFError]. *)
Inductive key_in : Type :=
| Line (s : string)
| CtrlC.

Inductive asked : Type :=
| Answer (channel_id : string) (stdin : list key_in)
| KeyboardInterrupt (stdin : list key_in)
| EndOfInput.

(** The first [input()] and the [while not channel_id] loop after it. *)
Fixpoint ask (stdin : list key_in) : asked :=
  match stdin with
  | [] => EndOfInput
  | CtrlC :: stdin' => KeyboardInterrupt stdin'
  | Line s :: stdin' => if String.eqb s "" then ask stdin' else Answer s stdin'
  end.

(** The f-string of line 91. *)
Definition new_filename (cave_id : atom) (media_index_counter : Z)
    (channel_id user_id : atom) (extension : string) : string :=
  str cave_id +:+ "_" +:+ str_of_Z media_index_counter +:+ "_"
  +:+ str channel_id +:+ "_" +:+ str user_id +:+ extension.

(** The elements the inner loop gives a new name: an image or a video
    (line 83) with a file name (line 85). *)
Definition bears_file (e : dict) : bool :=
  in_strs (e !! "type") ["image"; "video"] && truthy_opt (e !! "file").

(** How the body of the inner loop left one element. *)
Inductive outcome : Type :=
| Passed
| NoFilename
| Renamed (old new : string)
| Missing (old new : string)
| RenameError (old new : string)
| Uncaught (e : exn).

Section WithOS.
Context {FS : Type} `{OS FS}.

(** Lines 80 to 112 on one element: the copy that goes to
    [new_elements], the counter and the world after it. *)
Definition step (resources_dir : string) (cave_id channel_id user_id : atom)
    (element : dict) (media_index_counter : Z) (w : world FS)
    : dict * Z * world FS * outcome :=
  let new_element := element in
  if in_strs (new_element !! "type") ["image"; "video"] then
    let original_filename := new_element !! "file" in
    if negb (truthy_opt original_filename)
    then (new_element, media_index_counter, w, NoFilename)
    else
      match original_filename with
      | Some (AStr original_filename) =>
          let extension := snd (splitext original_filename) in
          let new_filename :=
            new_filename cave_id media_index_counter channel_id user_id
              extension in
          let old_path := join resources_dir (basename original_filename) in
          let new_path := join resources_dir new_filename in
          let '(w', o) :=
            if path_exists (fs w) old_path then
              match do_rename old_path new_path w with
              | (w', true) =>
                  (print (MsgRenamed (basename old_path) new_filename) w',
                   Renamed original_filename new_filename)
              | (w', false) =>
                  (print (MsgFileError (AStr (basename old_path)) OSError) w',
                   RenameError original_filename new_filename)
              end
            else
              (print (MsgMissing (basename original_filename)) w,
               Missing original_filename new_filename) in
          (<["file" := AStr new_filename]> new_element,
           media_index_counter + 1, w', o)
      | _ => (new_element, media_index_counter, w, Uncaught TypeError)
      end
  else (new_element, media_index_counter, w, Passed).

Fixpoint for_elements (resources_dir : string)
    (cave_id channel_id user_id : atom) (els : list dict)
    (media_index_counter : Z) (w : world FS)
    : list dict * world FS * option exn :=
  match els with
  | [] => ([], w, None)
  | element :: rest =>
      match step resources_dir cave_id channel_id user_id element
              media_index_counter w with
      | (_, _, w', Uncaught e) => ([], w', Some e)
      | (new_element, i, w', _) =>
          let '(new_elements, w'', r) :=
            for_elements resources_dir cave_id channel_id user_id rest i w' in
          (new_element :: new_elements, w'', r)
      end
  end.

(** The state of the outer loop. *)
Record state : Type := mk_state {
  user_channel_map : gmap atom atom;
  output_data : list cave;
  stdin : list key_in;
  w : world FS
}.

(** The state after the warning of line 58. *)
Definition warned (st : state) : state :=
  mk_state (user_channel_map st) (output_data st) (stdin st)
    (print MsgItemSkipped (w st)).

(** Why the outer loop ended. *)
Inductive ending : Type :=
| Finished
| Interrupted
| Raised (e : exn).

Section Loop.
(** The reading of the clock for the n-th record written. *)
Variable now : nat -> string.
Variable resources_dir : string.

(** Lines 77 to 123, once [channel_id] is known. *)
Definition emit (item : cave) (cave_id user_id user_name : atom)
    (st : state) : state * option exn :=
  let channel_id :=
    default ANone (user_channel_map st !! key_of user_id) in
  let '(new_elements, w', r) :=
    for_elements resources_dir cave_id channel_id user_id
      (get_elements item) 1 (w st) in
  match r with
  | Some e =>
      (mk_state (user_channel_map st) (output_data st) (stdin st) w', Some e)
  | None =>
      let new_item :=
        mk_cave
          (<["channelId" := channel_id]>
             (<["userId" := user_id]>
                (<["userName" := user_name]>
                   (<["status" := AStr "active"]>
                      {["time" := AStr (now (length (output_data st)))]}))))
          (Some new_elements) in
      (mk_state (user_channel_map st) (output_data st ++ [new_item])
         (stdin st) w', None)
  end.

(** The loop of line 52. *)
Fixpoint for_items (data : list cave) (st : state) : state * ending :=
  match data with
  | [] => (st, Finished)
  | item :: rest =>
      let cave_id := fields item !! "cave_id" in
      let user_id := fields item !! "contributor_number" in
      let user_name := get (fields item) "contributor_name" (AStr "Unknown") in
      if negb (all [truthy_opt cave_id; truthy_opt user_id]) then
        for_items rest (warned st)
      else
        let cave_id := default ANone cave_id in
        let user_id := default ANone user_id in
        let next (st : state) :=
          match emit item cave_id user_id user_name st with
          | (st', Some e) => (st', Raised e)
          | (st', None) => for_items rest st'
          end in
        if bool_decide (is_Some (user_channel_map st !! key_of user_id))
        then next st
        else
          let w1 := print (MsgPrompt user_id user_name) (w st) in
          match ask (stdin st) with
          | Answer channel_id stdin' =>
              next (mk_state
                      (<[key_of user_id := AStr channel_id]> (user_channel_map st))
                      (output_data st) stdin' w1)
          | KeyboardInterrupt stdin' =>
              (mk_state (user_channel_map st) (output_data st) stdin'
                 (print MsgInterrupted w1), Interrupted)
          | EndOfInput =>
              (mk_state (user_channel_map st) (output_data st) [] w1,
               Raised EOFError)
          end
  end.
End Loop.

Inductive exit : Type :=
| Done
| Diagnosed
| Crashed.

(** [convert_and_rename_files].  The mapping file, when it parses,
    holds an object, and the input file a list of records. *)
Definition convert_and_rename_files (now : nat -> string)
    (input_filename output_filename mapping_filename resources_dir : string)
    (keys : list key_in) (w0 : world FS) : exit * world FS :=
  let '(w1, ok) :=
    if negb (path_exists (fs w0) resources_dir)
    then do_makedirs resources_dir w0 else (w0, true) in
  if negb ok then (Crashed, w1)
  else
    match
      match json_load (fs w1) mapping_filename with
      | Loaded (JsonMap m) => Some m
      | Loaded (JsonDoc _) => None
      | _ => Some ∅
      end
    with
    | None => (Crashed, w1)
    | Some loaded_map =>
        match json_load (fs w1) input_filename with
        | FileNotFound => (Diagnosed, print (MsgNoJson input_filename) w1)
        | JSONDecodeError => (Diagnosed, print (MsgBadJson input_filename) w1)
        | Loaded (JsonMap _) => (Crashed, w1)
        | Loaded (JsonDoc data) =>
            match for_items now resources_dir data
                    (mk_state loaded_map [] keys w1) with
            | (st, Raised _) => (Crashed, w st)
            | (st, _) =>
                match do_dump mapping_filename
                        (JsonMap (user_channel_map st)) (w st) with
                | (w2, false) => (Crashed, w2)
                | (w2, true) =>
                    match do_dump output_filename
                            (JsonDoc (output_data st))
                            (print (MsgSaved mapping_filename) w2) with
                    | (w3, false) => (Crashed, w3)
                    | (w3, true) => (Done, print (MsgSaved output_filename) w3)
                    end
                end
            end
        end
    end.

End WithOS.
End Convert.

(** ** A sample file system

    Paths are compared as strings.  A node is a directory, a media file
    with its bytes, or a text file that holds JSON or does not parse.
    [rename] replaces an existing file, as POSIX does, refuses to replace
    a directory by a file, and leaves directories where they are. *)

Module Posix.
Import Py Doc Os.

Inductive node : Type :=
| Dir
| Media (bytes : string)
| Text (j : option json_text).

Abbreviation disk := (gmap string node).

(** The signatures of three of the kinds [filetype] knows. *)
Definition magic : list (string * string) :=
  [ (String "255" (String "216" (String "255" EmptyString)), "jpg");
    (String "137" "PNG", "png");
    ("GIF", "gif") ].

Definition sniff (bytes : string) : option string :=
  snd <$> List.find (fun '(sig, _) => String.prefix sig bytes) magic.

Definition posix_rename (d : disk) (src dst : string) : option disk :=
  match d !! src with
  | None | Some Dir => None
  | Some n =>
      match d !! dst with
      | Some Dir => None
      | _ => Some (<[dst := n]> (delete src d))
      end
  end.

#[global] Instance posix : OS disk := {|
  path_exists d p := bool_decide (is_Some (d !! p));
  path_isdir d p := match d !! p with Some Dir => true | _ => false end;
  rename := posix_rename;
  makedirs d p :=
    match d !! p with
    | None => Some (<[p := Dir]> d)
    | Some _ => None
    end;
  filetype_guess d p :=
    match d !! p with
    | Some (Media bytes) =>
        match sniff bytes with
        | Some e => GuessKind e
        | None => GuessNone
        end
    | Some (Text _) => GuessNone
    | Some Dir | None => GuessRaises
    end;
  json_load d p :=
    match d !! p with
    | Some (Text (Some j)) => Loaded j
    | Some (Text None) | Some (Media _) => JSONDecodeError
    | Some Dir | None => FileNotFound
    end;
  json_dump d p j :=
    match d !! p with
    | Some Dir => None
    | _ => Some (<[p := Text (Some j)]> d)
    end
|}.

Definition jpg_bytes : string :=
  String "255" (String "216" (String "255" (String "224" "JFIF"))).
Definition png_bytes : string := String "137" "PNG" +:+ "....".
Definition gif_bytes : string := "GIF89a".

Definition boot (d : disk) : world disk := mk_world d [] [].

End Posix.

(** ** What the specification says, in its own words *)

Module Spec.
Import Py Doc Os.

(** "Canonical filename =
    [{recordId}-{attachmentIndex}_{channelId}-{userId}_{timestampMs}{extension}]" *)
Definition canonical_filename (recordId : atom) (attachmentIndex : Z)
    (channelId userId : atom) (timestampMs : Z) (extension : string) : string :=
  String.concat ""
    [str recordId; "-"; str_of_Z attachmentIndex; "_"; str channelId; "-";
     str userId; "_"; str_of_Z timestampMs; extension].

(** "attachmentIndex is a 1-based counter scoped per Record, incremented
    only for attachments that carry a file reference": the index of the
    attachment at position [i] counts the file-bearing attachments up to
    and including it. *)
Definition count_bearing (bears_file : dict -> bool) (els : list dict) : Z :=
  Z.of_nat (length (filter (fun e => bears_file e = true) els)).

Definition attachment_index (bears_file : dict -> bool) (els : list dict)
    (i : nat) : Z :=
  count_bearing bears_file (take (S i) els).




(** A falsy value of a record field: "absent, None, empty string, or
    the number 0" (and [false], which is the number 0 to Python). *)
Definition falsy (o : option atom) : Prop :=
  o = None \/ o = Some ANone \/ o = Some (AStr "") \/ o = Some (AInt 0)
  \/ o = Some (ABool false).

(** The terminal states [skipped:*] of an attachment, per script. *)
Definition ext_skipped (o : FixExtension.outcome) : bool :=
  match o with
  | FixExtension.Missing _ | FixExtension.Undetectable _
  | FixExtension.Failed _ => true
  | _ => false
  end.

Definition reindex_skipped (o : FixIndexAndAddTime.outcome) : bool :=
  match o with
  | FixIndexAndAddTime.Missing _ | FixIndexAndAddTime.Raised _ => true
  | _ => false
  end.

Definition convert_skipped (o : Convert.outcome) : bool :=
  match o with
  | Convert.Missing _ _ | Convert.RenameError _ _ => true
  | _ => false
  end.

(** "No filesystem rename was attempted or it failed without side
    effect." *)
Definition no_rename_effect {FS : Type} (w0 w' : world FS) : Prop :=
  fs w' = fs w0
  /\ (trace w' = trace w0
      \/ exists src dst, trace w' = (trace w0 ++ [CallRename src dst false])%list).

(** A rename that raised. *)
Definition rename_failed (c : call) : bool :=
  match c with CallRename _ _ false => true | _ => false end.

(** A trace without a failed rename. *)
Definition renames_ok (t : list call) : Prop :=
  Forall (fun c => rename_failed c = false) t.

(** Would extension-fix mode rename the file of this name: the file is
    there, its kind is detected, and the extension of the name differs
    from the kind's by more than letter case. *)
Definition needs_fix {FS : Type} `{OS FS} (files_base_dir : string) (fs0 : FS)
    (name : string) : bool :=
  path_exists fs0 (OsPath.join files_base_dir name)
  && match filetype_guess fs0 (OsPath.join files_base_dir name) with
     | GuessKind extension =>
         negb (String.eqb (lower (snd (OsPath.splitext name)))
                          (lower ("." +:+ extension)))
     | _ => false
     end.

(** An attachment extension-fix mode has nothing to correct on. *)
Definition settled {FS : Type} `{OS FS} (files_base_dir : string) (fs0 : FS)
    (e : dict) : Prop :=
  match e !! "file" with
  | Some (AStr name) => needs_fix files_base_dir fs0 name = false
  | _ => True
  end.

(** What a successful [os.rename] does: the file is found under the new
    path and no longer under the old one, with the content it had, and
    every other path is as before. *)
Definition lawful_rename (FS : Type) `{OS FS} : Prop :=
  forall (fs0 fs' : FS) (src dst : string),
    rename fs0 src dst = Some fs' ->
    path_exists fs' dst = true
    /\ filetype_guess fs' dst = filetype_guess fs0 src
    /\ (src <> dst -> path_exists fs' src = false)
    /\ (forall p, p <> src -> p <> dst ->
          path_exists fs' p = path_exists fs0 p
          /\ filetype_guess fs' p = filetype_guess fs0 p).

(** A file name extension-fix mode can settle: it is relative, and with
    the extension of any kind the detector reports put after its root,
    that extension is what [splitext] finds again (a name made of dots
    alone is not such a name). *)
Definition fixable_name {FS : Type} `{OS FS} (name : string) : Prop :=
  startswith name "/" = false
  /\ forall (fs0 : FS) (p extension : string),
       filetype_guess fs0 p = GuessKind extension ->
       lower (snd (OsPath.splitext
                     (fst (OsPath.splitext name) +:+ "." +:+ extension)))
       = lower ("." +:+ extension).

Definition fixable {FS : Type} `{OS FS} (e : dict) : Prop :=
  match e !! "file" with
  | Some (AStr name) => fixable_name name
  | _ => True
  end.

(** An attachment whose file name is relative. *)
Definition relative (e : dict) : Prop :=
  match e !! "file" with
  | Some (AStr name) => startswith name "/" = false
  | _ => True
  end.

(** All the attachments of a document. *)
Definition all_elements (d : list cave) : list dict :=
  flat_map get_elements d.

(** How many elements of a list pass a test, as the counters count. *)
Definition count {A : Type} (f : A -> bool) (l : list A) : Z :=
  Z.of_nat (length (List.filter f l)).

(** A rename that went through. *)
Definition rename_succeeded (c : call) : bool :=
  match c with CallRename _ _ true => true | _ => false end.

(** The console lines of the decisions. *)
Definition is_renamed_msg (m : msg) : bool :=
  match m with MsgRenamed _ _ => true | _ => false end.

Definition is_missing_msg (m : msg) : bool :=
  match m with MsgMissing _ => true | _ => false end.

Definition is_skip_msg (m : msg) : bool :=
  match m with
  | MsgMissing _ | MsgUndetectable _ | MsgFileError _ _ => true
  | _ => false
  end.

Definition is_prompt_msg (m : msg) : bool :=
  match m with MsgPrompt _ _ => true | _ => false end.

(** The calls of a trace that write a document. *)
Definition is_dump (c : call) : bool :=
  match c with CallDump _ _ _ => true | _ => false end.

Definition dumps (t : list call) : list call := List.filter is_dump t.

(** The calls of a trace that rename. *)
Definition is_rename (c : call) : bool :=
  match c with CallRename _ _ _ => true | _ => false end.

Definition renames (t : list call) : list call := List.filter is_rename t.

(** The balances a full-reindex run keeps between its counters, the
    trace and the console: renames that went through, lines that report a
    rename, lines that report a missing file. *)
Record reindex_balance {FS : Type} (c c' : FixIndexAndAddTime.counters)
    (w0 w' : world FS) : Prop := {
  bal_renamed :
    count rename_succeeded (trace w') - count rename_succeeded (trace w0)
    = FixIndexAndAddTime.total_renamed c' - FixIndexAndAddTime.total_renamed c;
  bal_renamed_msg :
    count is_renamed_msg (console w') - count is_renamed_msg (console w0)
    = FixIndexAndAddTime.total_renamed c' - FixIndexAndAddTime.total_renamed c;
  bal_missing :
    count is_missing_msg (console w') - count is_missing_msg (console w0)
    = FixIndexAndAddTime.total_skipped c' - FixIndexAndAddTime.total_skipped c;
  bal_grows :
    FixIndexAndAddTime.total_renamed c <= FixIndexAndAddTime.total_renamed c'
}.

(** The balances of an extension-fix run: renames that went through and
    lines that report one against [total_corrected], lines that report a
    skip against [total_skipped]; a failed rename is one of the skips. *)
Record ext_balance {FS : Type} (c c' : FixExtension.counters)
    (w0 w' : world FS) : Prop := {
  ebal_corrected :
    count rename_succeeded (trace w') - count rename_succeeded (trace w0)
    = FixExtension.total_corrected c' - FixExtension.total_corrected c;
  ebal_corrected_msg :
    count is_renamed_msg (console w') - count is_renamed_msg (console w0)
    = FixExtension.total_corrected c' - FixExtension.total_corrected c;
  ebal_skipped :
    count is_skip_msg (console w') - count is_skip_msg (console w0)
    = FixExtension.total_skipped c' - FixExtension.total_skipped c;
  ebal_failed :
    0 <= count rename_failed (trace w') - count rename_failed (trace w0)
      <= FixExtension.total_skipped c' - FixExtension.total_skipped c;
  ebal_attempts :
    count is_rename (trace w') - count is_rename (trace w0)
    = (FixExtension.total_corrected c' - FixExtension.total_corrected c)
      + (count rename_failed (trace w') - count rename_failed (trace w0));
  ebal_grows :
    FixExtension.total_corrected c <= FixExtension.total_corrected c'
}.

End Spec.

(** ** Sample documents and disks *)

Module Samples.
Import Py Doc Os Posix.

Definition image (file : string) : dict :=
  <["type" := AStr "image"]> {["file" := AStr file]}.

Definition text (content : string) : dict :=
  <["type" := AStr "text"]> {["content" := AStr content]}.

Definition record (id : atom) (channel user time : string) (els : list dict)
    : cave :=
  mk_cave
    (<["id" := id]> (<["channelId" := AStr channel]>
       (<["userId" := AStr user]> {["time" := AStr time]})))
    (Some els).

(** The [file] fields of a document, in order. *)
Definition file_fields (d : list cave) : list (option atom) :=
  flat_map (fun c => map (fun e : dict => e !! "file") (get_elements c)) d.

(** The document a path holds. *)
Definition stored (d : disk) (path : string) : list cave :=
  match d !! path with
  | Some (Text (Some (JsonDoc doc))) => doc
  | _ => []
  end.

(** The end-to-end example of the specification. *)
Definition rec5 : cave :=
  record (AInt 5) "c1" "u1" "2023-01-01T00:00:00Z" [image "photo.jpg"].

Definition disk5 : disk :=
  <["cave" := Dir]>
    (<["cave/photo.jpg" := Media jpg_bytes]>
       {["cave_export.json" := Text (Some (JsonDoc [rec5]))]}).

Definition run5 : FixIndexAndAddTime.exit * world disk :=
  FixIndexAndAddTime.main "cave_export.json" "cave_export_updated.json" "cave"
    (boot disk5).

(** Two records with one image each, the second after a text element. *)
Definition rec1 : cave :=
  record (AInt 1) "c1" "u1" "2023-01-01T00:00:00Z" [image "a.jpg"].
Definition rec2 : cave :=
  record (AInt 2) "c2" "u2" "2023-01-01T00:00:01Z" [text "hello"; image "b.png"].

Definition disk12 : disk :=
  <["cave" := Dir]>
    (<["cave/a.jpg" := Media jpg_bytes]> {["cave/b.png" := Media png_bytes]}).

Definition run12 : list cave * FixIndexAndAddTime.counters * world disk :=
  FixIndexAndAddTime.for_caves "cave" [rec1; rec2]
    (FixIndexAndAddTime.mk_counters 0 0 0) (boot disk12).

Definition renamed_b : dict :=
  <["file" := AStr "2-1_c2-u2_1672531201000.png"]> (image "b.png").

(** An old-schema record whose id is the number 0. *)
Definition item0 : cave :=
  mk_cave
    (<["cave_id" := AInt 0]>
       (<["contributor_number" := AStr "10001"]>
          {["contributor_name" := AStr "Ann"]}))
    (Some [image "zero.jpg"]).

Definition disk0 : disk :=
  <["resources" := Dir]> {["resources/zero.jpg" := Media jpg_bytes]}.

Definition clock (n : nat) : string := "2024-01-01T00:00:00Z".

Definition start0 : Convert.state :=
  Convert.mk_state ∅ [] [Convert.Line "chan"] (boot disk0).

(** An image whose extension is written in capitals. *)
Definition diskJPG : disk :=
  <["cave" := Dir]> {["cave/photo.JPG" := Media jpg_bytes]}.



(** One step whose rename fails: the target name is a directory. *)
Definition disk42x : disk :=
  <["cave/x.jpg" := Media jpg_bytes]>
    {["cave/42-1_7-99_1690000000000.jpg" := Dir]}.

Definition locals42 : FixIndexAndAddTime.locals :=
  FixIndexAndAddTime.mk_locals 0 false (FixIndexAndAddTime.mk_counters 0 0 0)
    (boot disk42x).

Definition step42
    : dict * FixIndexAndAddTime.locals * FixIndexAndAddTime.outcome :=
  FixIndexAndAddTime.step "cave"
    (FixIndexAndAddTime.mk_meta (AInt 42) (AInt 7) (AInt 99) 1690000000000)
    (image "x.jpg") locals42.

(** A record with two images; the name the first one is to take is held
    by a directory. *)
Definition rec9 : cave :=
  record (AInt 9) "c1" "u1" "2023-01-01T00:00:00Z"
    [image "x.jpg"; image "y.jpg"].

Definition disk9 : disk :=
  <["cave" := Dir]>
    (<["cave/x.jpg" := Media jpg_bytes]>
       (<["cave/y.jpg" := Media jpg_bytes]>
          {["cave/9-1_c1-u1_1672531200000.jpg" := Dir]})).

Definition run9 : cave * FixIndexAndAddTime.counters * world disk :=
  FixIndexAndAddTime.process_cave "cave" rec9
    (FixIndexAndAddTime.mk_counters 0 0 0) (boot disk9).

(** A record without [id], before the record of the end-to-end example. *)
Definition rec_noid : cave :=
  mk_cave {["time" := AStr "2023-01-01T00:00:00Z"]} (Some [image "a.jpg"]).

Definition disk6 : disk :=
  <["cave" := Dir]>
    (<["cave/photo.jpg" := Media jpg_bytes]>
       (<["cave/a.jpg" := Media jpg_bytes]>
          {["cave_export.json" := Text (Some (JsonDoc [rec_noid; rec5]))]})).

Definition run6 : FixIndexAndAddTime.exit * world disk :=
  FixIndexAndAddTime.main "cave_export.json" "cave_export_updated.json" "cave"
    (boot disk6).

(** The second run over what the first run of the end-to-end example
    left: its output document and its disk. *)
Definition run5_again : FixIndexAndAddTime.exit * world disk :=
  FixIndexAndAddTime.main "cave_export_updated.json" "cave_export_updated.json"
    "cave" (boot (fs (snd run5))).

(** An image that holds PNG data under the name [photo.jpg], and the
    first extension-fix pass over it. *)
Definition rec_png : cave :=
  record (AInt 3) "c1" "u1" "2023-01-01T00:00:00Z" [image "photo.jpg"].

Definition disk_png : disk :=
  <["cave" := Dir]> {["cave/photo.jpg" := Media png_bytes]}.

Definition pass1
    : list cave * FixExtension.counters * world disk * option exn :=
  FixExtension.for_caves "cave" [rec_png] (FixExtension.mk_counters 0 0)
    (boot disk_png).

(** A file whose name is made of dots, and two extension-fix passes. *)
Definition rec_dots : cave :=
  record (AInt 4) "c1" "u1" "2023-01-01T00:00:00Z" [image "..."].

Definition disk_dots : disk :=
  <["cave" := Dir]> {["cave/..." := Media png_bytes]}.

Definition dots1
    : list cave * FixExtension.counters * world disk * option exn :=
  FixExtension.for_caves "cave" [rec_dots] (FixExtension.mk_counters 0 0)
    (boot disk_dots).

Definition dots2
    : list cave * FixExtension.counters * world disk * option exn :=
  FixExtension.for_caves "cave" (fst (fst (fst dots1)))
    (FixExtension.mk_counters 0 0) (snd (fst dots1)).

(** An attachment that carries its canonical name already. *)
Definition disk42c : disk :=
  <["cave" := Dir]> {["cave/42-1_7-99_1690000000000.png" := Media png_bytes]}.

Definition locals42c : FixIndexAndAddTime.locals :=
  FixIndexAndAddTime.mk_locals 0 false (FixIndexAndAddTime.mk_counters 0 0 0)
    (boot disk42c).

(** A PNG file under a [.png] name. *)
Definition disk_ok : disk :=
  <["cave" := Dir]> {["cave/photo.png" := Media png_bytes]}.

(** A disk without the input document, and one whose input document
    does not parse. *)
Definition disk_nojson : disk := {["cave" := Dir]}.

Definition disk_badjson : disk :=
  <["cave" := Dir]> {["cave_export.json" := Text None]}.

(** An extension-fix run from the document on disk. *)
Definition disk_ext : disk :=
  <["cave" := Dir]>
    (<["cave/photo.jpg" := Media png_bytes]>
       {["cave_export.json" := Text (Some (JsonDoc [rec_png]))]}).

Definition run_ext
    : FixExtension.exit * option (list cave) * world disk :=
  FixExtension.correct_files_and_update_json "cave_export.json" "cave"
    (boot disk_ext).

(** Steps on an attachment whose file is missing. *)
Definition ext_gone
    : dict * FixExtension.counters * world disk * FixExtension.outcome :=
  FixExtension.step "cave" (image "gone.jpg") (FixExtension.mk_counters 0 0)
    (boot diskJPG).

Definition reindex_gone
    : dict * FixIndexAndAddTime.locals * FixIndexAndAddTime.outcome :=
  FixIndexAndAddTime.step "cave"
    (FixIndexAndAddTime.mk_meta (AInt 42) (AInt 7) (AInt 99) 1690000000000)
    (image "gone.jpg") locals42c.

Definition convert_gone
    : dict * Z * world disk * Convert.outcome :=
  Convert.step "resources" (AInt 7) (AStr "chan") (AStr "10001")
    (image "gone.jpg") 1 (boot disk0).

Definition run5_cave : cave * FixIndexAndAddTime.counters * world disk :=
  FixIndexAndAddTime.process_cave "cave" rec5
    (FixIndexAndAddTime.mk_counters 0 0 0) (boot disk5).

Definition renamed_photo : dict :=
  <["file" := AStr "5-1_c1-u1_1672531200000.jpg"]> (image "photo.jpg").

(** The record with id 0 once more, without its id. *)
Definition item0_noid : cave :=
  mk_cave (delete "cave_id" (fields item0)) (elements item0).


(** The first extension-fix pass, once more, for its record. *)
Definition rec_png_fixed : cave :=
  mk_cave (fields rec_png)
    (Some [<["file" := AStr "photo.png"]> (image "photo.jpg")]).

(** A full-reindex call over three records: one renamed, one without
    [id], one whose rename fails. *)
Definition disk_mixed : disk :=
  <["cave" := Dir]>
    (<["cave/photo.jpg" := Media jpg_bytes]>
       (<["cave/x.jpg" := Media jpg_bytes]>
          (<["cave/y.jpg" := Media jpg_bytes]>
             {["cave/9-1_c1-u1_1672531200000.jpg" := Dir]}))).

Definition run_mixed
    : option (list cave) * FixIndexAndAddTime.counters * world disk :=
  FixIndexAndAddTime.rename_files_and_update_json [rec5; rec_noid; rec9]
    "cave" (boot disk_mixed).

(** One extension-fix step that corrects, one full-reindex step that
    renames. *)
Definition ext_fix
    : dict * FixExtension.counters * world disk * FixExtension.outcome :=
  FixExtension.step "cave" (image "photo.jpg") (FixExtension.mk_counters 0 0)
    (boot disk_png).

Definition disk_old : disk := {["cave/old.png" := Media png_bytes]}.

Definition locals_old : FixIndexAndAddTime.locals :=
  FixIndexAndAddTime.mk_locals 0 false (FixIndexAndAddTime.mk_counters 0 0 0)
    (boot disk_old).

Definition reindex_old
    : dict * FixIndexAndAddTime.locals * FixIndexAndAddTime.outcome :=
  FixIndexAndAddTime.step "cave"
    (FixIndexAndAddTime.mk_meta (AInt 42) (AInt 7) (AInt 99) 1690000000000)
    (image "old.png") locals_old.

Definition meta42 : FixIndexAndAddTime.meta :=
  FixIndexAndAddTime.mk_meta (AInt 42) (AInt 7) (AInt 99) 1690000000000.

End Samples.

(** * Properties *)


(** ** The model on small inputs *)

Section Sanity.
Import Py Doc Os OsPath Posix.

Example splitext_photo : splitext "photo.jpg" = ("photo", ".jpg").
Proof. reflexivity. Qed.

Example splitext_leading_dots : splitext "...jpg" = ("...jpg", "").
Proof. reflexivity. Qed.

Example splitext_hidden : splitext "dir.d/.bashrc" = ("dir.d/.bashrc", "").
Proof. reflexivity. Qed.

Example splitext_last_dot : splitext "a/b.tar.gz" = ("a/b.tar", ".gz").
Proof. reflexivity. Qed.

Example basename_path : basename "old/dir/a.png" = "a.png".
Proof. reflexivity. Qed.

Example join_relative : join "cave" "a.png" = "cave/a.png".
Proof. reflexivity. Qed.

Example join_absolute : join "cave" "/tmp/a.png" = "/tmp/a.png".
Proof. reflexivity. Qed.

Example str_negative : str (AInt (-42)) = "-42".
Proof. reflexivity. Qed.

Example lower_upper_ext : lower ".JPG" = ".jpg".
Proof. reflexivity. Qed.

Example iso_with_offset :
  FixIndexAndAddTime.convert_iso_to_ms_timestamp "2023-01-01T08:00:00+08:00"
  = Ret 1672531200000.
Proof. vm_compute. reflexivity. Qed.

Example iso_naive_is_utc :
  FixIndexAndAddTime.convert_iso_to_ms_timestamp "2023-01-01T00:00:00"
  = Ret 1672531200000.
Proof. vm_compute. reflexivity. Qed.

Example iso_before_epoch :
  FixIndexAndAddTime.convert_iso_to_ms_timestamp "1969-12-31T23:59:59Z"
  = Ret (-1000).
Proof. vm_compute. reflexivity. Qed.

Example iso_bad_day :
  FixIndexAndAddTime.convert_iso_to_ms_timestamp "2023-02-29T00:00:00Z"
  = Exc ValueError.
Proof. vm_compute. reflexivity. Qed.

(** The product with 1000 is taken in binary64 and truncated: 8.001
    seconds give 8000 milliseconds. *)
Example iso_fraction_truncated :
  FixIndexAndAddTime.convert_iso_to_ms_timestamp "1970-01-01T00:00:08.001Z"
  = Ret 8000.
Proof. vm_compute. reflexivity. Qed.

(** The name [convert.py] builds has no time stamp and underscores
    throughout, as its docstring says. *)
Example convert_name :
  Convert.new_filename (AInt 42) 1 (AStr "7") (AInt 99) ".png" = "42_1_7_99.png".
Proof. reflexivity. Qed.

(** The first extension-fix pass of the sample renames the PNG data to
    [photo.png]. *)
Example pass1_corrects :
  snd (fst (fst Samples.pass1)) = FixExtension.mk_counters 1 0
  /\ Samples.file_fields (fst (fst (fst Samples.pass1)))
     = [Some (AStr "photo.png")]
  /\ trace (snd (fst Samples.pass1))
     = [CallRename "cave/photo.jpg" "cave/photo.png" true].
Proof. vm_compute. repeat split. Qed.

(** A name made of dots has no extension to [splitext], also after the
    detected one is put behind it: every pass corrects it again. *)
Example dots_corrected_again :
  Samples.file_fields (fst (fst (fst Samples.dots1))) = [Some (AStr "....png")]
  /\ snd (fst (fst Samples.dots2)) = FixExtension.mk_counters 1 0
  /\ Samples.file_fields (fst (fst (fst Samples.dots2)))
     = [Some (AStr "....png.png")].
Proof. vm_compute. repeat split. Qed.

End Sanity.
(** ** The calls and the world *)

Section CallFacts.
Import Py Doc Os.
Context {FS : Type} `{OS FS}.

Lemma do_rename_true (src dst : string) (w w' : world FS) :
  do_rename src dst w = (w', true) ->
  exists fs', rename (fs w) src dst = Some fs'
    /\ w' = mk_world fs' (trace w ++ [CallRename src dst true]) (console w).
Proof.
  unfold do_rename. destruct (rename (fs w) src dst) as [fs'|]; intros E;
    inversion E; subst. eauto.
Qed.

Lemma do_rename_false (src dst : string) (w w' : world FS) :
  do_rename src dst w = (w', false) ->
  rename (fs w) src dst = None
  /\ w' = mk_world (fs w) (trace w ++ [CallRename src dst false]) (console w).
Proof.
  unfold do_rename. destruct (rename (fs w) src dst) as [fs'|]; intros E;
    inversion E; subst. eauto.
Qed.

Lemma do_rename_some (src dst : string) (w : world FS) (fs' : FS) :
  rename (fs w) src dst = Some fs' ->
  do_rename src dst w
  = (mk_world fs' (trace w ++ [CallRename src dst true]) (console w), true).
Proof. unfold do_rename. by intros ->. Qed.

Lemma do_rename_none (src dst : string) (w : world FS) :
  rename (fs w) src dst = None ->
  do_rename src dst w
  = (mk_world (fs w) (trace w ++ [CallRename src dst false]) (console w), false).
Proof. unfold do_rename. by intros ->. Qed.

Lemma print_fs (m : msg) (w : world FS) : fs (print m w) = fs w.
Proof. reflexivity. Qed.

Lemma print_trace (m : msg) (w : world FS) : trace (print m w) = trace w.
Proof. reflexivity. Qed.
End CallFacts.


(** ** The two roundings of [timestamp() * 1000] *)

Section Rounding.
Import DateTime.



End Rounding.

(** ** Strings and paths *)

Section PathFacts.
Import Py OsPath.

Lemma str_take_drop (k : nat) (s : string) : str_take k s +:+ str_drop k s = s.
Proof.
  revert s. induction k as [|k IH]; intros [|c s]; simpl; try done.
  change (String c (str_take k s +:+ str_drop k s) = String c s).
  f_equal. apply IH.
Qed.

(** The two parts [splitext] returns make up the path. *)
Lemma splitext_app (p : string) : fst (splitext p) +:+ snd (splitext p) = p.
Proof.
  unfold splitext. destruct (_ && _); simpl.
  - apply str_take_drop.
  - induction p as [|c p IH]; [done|].
    change (String c (p +:+ "") = String c p). by rewrite IH.
Qed.

Lemma append_inj (r a b : string) : r +:+ a = r +:+ b -> a = b.
Proof.
  induction r as [|c r IH]; [done|].
  change (String c (r +:+ a) = String c (r +:+ b) -> a = b).
  intros E. inversion E. auto.
Qed.

Lemma startswith_slash (s : string) :
  startswith s "/" = match s with
                     | String c _ => Ascii.eqb "/" c
                     | EmptyString => false
                     end.
Proof.
  unfold startswith. destruct s as [|c s]; [done|].
  change (String.prefix "/" (String c s))
    with (if Ascii.ascii_dec "/" c then String.prefix "" s else false).
  destruct (Ascii.ascii_dec "/" c) as [<-|Hn].
  - rewrite Ascii.eqb_refl. by destruct s.
  - symmetry. by apply Ascii.eqb_neq.
Qed.

(** A relative name keeps the directory in front: [join] is injective
    on relative names. *)
Lemma join_relative_inj (d a b : string) :
  startswith a "/" = false -> startswith b "/" = false ->
  join d a = join d b -> a = b.
Proof.
  unfold join. intros -> ->.
  destruct (_ || _); intros E%append_inj; [done|]. by inversion E.
Qed.

(** The corrected name of a relative name is relative. *)
Lemma corrected_relative (name extension : string) :
  startswith name "/" = false ->
  startswith (fst (splitext name) +:+ "." +:+ extension) "/" = false.
Proof.
  rewrite !startswith_slash. intros Hrel.
  pose proof (splitext_app name) as Happ.
  destruct (fst (splitext name)) as [|c r]; [done|].
  simpl in *. rewrite <- Happ in Hrel. done.
Qed.

End PathFacts.
(** ** Counting the attachments that bear a file *)

Section Counting.
Import Py Doc.
Variable bears_file : dict -> bool.

Lemma count_bearing_cons (e : dict) (els : list dict) :
  Spec.count_bearing bears_file (e :: els)
  = (if bears_file e then 1 else 0) + Spec.count_bearing bears_file els.
Proof.
  unfold Spec.count_bearing. rewrite filter_cons.
  destruct (decide (bears_file e = true)) as [->|Hn].
  - simpl length. lia.
  - destruct (bears_file e); [done|]. lia.
Qed.

Lemma count_bearing_nil : Spec.count_bearing bears_file [] = 0.
Proof. reflexivity. Qed.


End Counting.

(** ** Full reindex: names and indices *)

Section ReindexFacts.
Import Py Doc Os OsPath FixIndexAndAddTime.
Context {FS : Type} `{OS FS}.

Lemma new_filename_canonical (m : meta) (i : Z) (ext : string) :
  new_filename m i ext
  = Spec.canonical_filename (cave_id m) i (channel_id m) (user_id m)
      (timestamp_ms m) ext.
Proof. reflexivity. Qed.

(** An element that is no media element passes through. *)
Lemma step_not_media (base_dir : string) (m : meta) (e : dict) (l : locals) :
  is_media e = false -> step base_dir m e l = (e, l, NotMedia).
Proof. unfold step. by intros ->. Qed.

(** Whatever happens, [step] moves the counter by one on a media
    element and changes at most the [file] field, to the new name. *)
Lemma step_media (base_dir : string) (m : meta) (e e' : dict)
    (l l' : locals) (o : outcome) :
  is_media e = true ->
  step base_dir m e l = (e', l', o) ->
  media_index l' = media_index l + 1
  /\ (e' = e
      \/ exists old, e !! "file" = Some (AStr old)
           /\ e' = <["file" := AStr (new_filename m (media_index l + 1)
                                       (snd (splitext old)))]> e).
Proof.
  unfold step. intros ->.
  destruct (e !! "file") as [[| | |old]|] eqn:Ef;
    try (intros E; inversion E; subst; simpl; auto; fail).
  destruct (path_exists _ _).
  - destruct (do_rename _ _ _) as [w' []]; intros E; inversion E; subst; simpl;
      eauto.
  - intros E; inversion E; subst; simpl; auto.
Qed.


(** The inner loop: the element at position [i] keeps its content or
    takes the name built with the number of media elements up to it. *)
Lemma for_elements_names (base_dir : string) (m : meta) (els : list dict) :
  forall (l : locals) (els' : list dict) (l' : locals) (r : option exn),
    for_elements base_dir m els l = (els', l', r) ->
    forall (i : nat) (e e' : dict),
      els !! i = Some e -> els' !! i = Some e' ->
      e' = e
      \/ (is_media e = true
          /\ exists old, e !! "file" = Some (AStr old)
               /\ e' = <["file" := AStr (new_filename m
                           (media_index l + Spec.count_bearing is_media (take (S i) els))
                           (snd (splitext old)))]> e).
Proof.
  induction els as [|x els IH]; intros l els' l' r E i e e' Hi Hi'.
  - done.
  - simpl in E.
    destruct (step base_dir m x l) as [[x' l1] o] eqn:Es.
    destruct (is_media x) eqn:Hm.
    + destruct (step_media _ _ _ _ _ _ _ Hm Es) as [Hidx Hx].
      assert (Hcase :
        (exists ex, o = Raised ex /\ els' = x' :: els)
        \/ (exists rest', for_elements base_dir m els l1 = (rest', l', r)
              /\ els' = x' :: rest')).
      { destruct o; try (right;
          destruct (for_elements base_dir m els l1) as [[rest' l2] r2];
          inversion E; subst; eauto; fail).
        left. inversion E; subst. eauto. }
      destruct i as [|i].
      * simpl in Hi. inversion Hi; subst e.
        assert (e' = x') as ->.
        { destruct Hcase as [(ex & _ & ->)|(rest' & _ & ->)];
            simpl in Hi'; congruence. }
        destruct Hx as [->|(old & Hold & ->)]; [by left|right].
        split; [done|]. exists old. split; [done|].
        rewrite firstn_cons, take_0, count_bearing_cons, Hm.
        rewrite count_bearing_nil. by rewrite Z.add_0_r.
      * simpl in Hi.
        destruct Hcase as [(ex & _ & ->)|(rest' & Erest & ->)]; simpl in Hi'.
        -- left. congruence.
        -- destruct (IH _ _ _ _ Erest i e e' Hi Hi') as [->|(Hme & old & Hold & ->)];
             [by left|right].
           split; [done|]. exists old. split; [done|].
           rewrite (firstn_cons (S i)), count_bearing_cons, Hm, Hidx.
           do 3 f_equal. lia.
    + rewrite (step_not_media _ _ _ _ Hm) in Es. inversion Es; subst x' l1 o.
      destruct (for_elements base_dir m els l) as [[rest' l2] r2] eqn:Erest.
      inversion E; subst els' l' r.
      destruct i as [|i]; simpl in Hi, Hi'.
      * left. congruence.
      * destruct (IH _ _ _ _ Erest i e e' Hi Hi') as [->|(Hme & old & Hold & ->)];
          [by left|right].
        split; [done|]. exists old. split; [done|].
        rewrite (firstn_cons (S i)), count_bearing_cons, Hm.
        do 3 f_equal.
  Qed.

End ReindexFacts.

Section ReindexRecords.
Import Py Doc Os OsPath FixIndexAndAddTime.
Context {FS : Type} `{OS FS}.

(** A record whose metadata cannot be read is left as it is. *)
Lemma process_cave_unreadable (base_dir : string) (cave : Doc.cave)
    (c : counters) (w0 : world FS) (e : exn) :
  read_meta (fields cave) = Exc e ->
  exists ms, process_cave base_dir cave c w0 = (cave, c, print ms w0).
Proof.
  unfold process_cave. intros ->. destruct e; eauto.
Qed.

(** A record whose metadata can be read: the inner loop runs from
    index 0 on its elements. *)
Lemma process_cave_readable (base_dir : string) (cave cave' : Doc.cave)
    (c c' : counters) (w0 w' : world FS) (m : meta) :
  read_meta (fields cave) = Ret m ->
  process_cave base_dir cave c w0 = (cave', c', w') ->
  exists els' l r,
    for_elements base_dir m (get_elements cave) (mk_locals 0 false c w0)
    = (els', l, r)
    /\ fields cave' = fields cave
    /\ (get_elements cave' = els' \/ get_elements cave = []).
Proof.
  unfold process_cave. intros ->.
  destruct (for_elements _ _ _ _) as [[els' l] r] eqn:E.
  intros E'. exists els', l, r. split; [done|].
  assert (cave' = mk_cave (fields cave)
            (match elements cave with Some _ => Some els' | None => None end))
    as ->.
  { destruct r as [[]|]; by inversion E'. }
  split; [done|].
  unfold get_elements. simpl. destruct (elements cave); auto.
Qed.

Lemma process_cave_names (base_dir : string) (cave cave' : Doc.cave)
    (c c' : counters) (w0 w' : world FS) :
  process_cave base_dir cave c w0 = (cave', c', w') ->
  forall (i : nat) (e e' : dict),
    get_elements cave !! i = Some e -> get_elements cave' !! i = Some e' ->
    e' = e
    \/ exists m old,
         read_meta (fields cave) = Ret m
         /\ is_media e = true
         /\ e !! "file" = Some (AStr old)
         /\ e' = <["file" := AStr (Spec.canonical_filename (cave_id m)
                     (Spec.attachment_index is_media (get_elements cave) i)
                     (channel_id m) (user_id m) (timestamp_ms m)
                     (snd (splitext old)))]> e.
Proof.
  intros E i e e' Hi Hi'.
  destruct (read_meta (fields cave)) as [m|ex] eqn:Em.
  - destruct (process_cave_readable _ _ _ _ _ _ _ _ Em E)
      as (els' & l & r & Eloop & _ & [Hels|Hnil]).
    + rewrite Hels in Hi'.
      destruct (for_elements_names _ _ _ _ _ _ _ Eloop i e e' Hi Hi')
        as [->|(Hm & old & Hold & ->)]; [by left|right].
      exists m, old. by repeat split.
    + by rewrite Hnil in Hi.
  - destruct (process_cave_unreadable base_dir cave c w0 ex Em) as [ms E'].
    rewrite E' in E. inversion E; subst. left. congruence.
Qed.

(** Every record of the output is [process_cave] of the record at the
    same place of the input, in the counters and the world of its turn. *)
Lemma for_caves_lookup (base_dir : string) (data : list cave) :
  forall (c : counters) (w0 : world FS) (data' : list cave) (c' : counters)
         (w' : world FS),
    for_caves base_dir data c w0 = (data', c', w') ->
    forall (j : nat) (cave cave' : Doc.cave),
      data !! j = Some cave -> data' !! j = Some cave' ->
      exists cj wj cj' wj', process_cave base_dir cave cj wj = (cave', cj', wj').
Proof.
  induction data as [|x data IH]; intros c w0 data' c' w' E j cave cave' Hj Hj'.
  - done.
  - simpl in E.
    destruct (process_cave base_dir x c w0) as [[x' c1] w1] eqn:Ex.
    destruct (for_caves base_dir data c1 w1) as [[rest' c2] w2] eqn:Er.
    inversion E; subst data' c' w'.
    destruct j as [|j]; simpl in Hj, Hj'.
    + inversion Hj; inversion Hj'; subst. eauto.
    + eapply IH; eauto.
Qed.




End ReindexRecords.


(** ** Schema conversion: names and indices *)

Section ConvertFacts.
Import Py Doc Os OsPath Convert.
Context {FS : Type} `{OS FS}.






End ConvertFacts.

(** ** Letter case *)

Section LetterCase.
Import Py.







End LetterCase.

(** ** Extension fix: the comparison *)

Section ExtensionFacts.
Import Py Doc Os OsPath FixExtension.
Context {FS : Type} `{OS FS}.


(** The element names a file that is there and whose kind is known. *)
Lemma step_detected (files_base_dir : string) (element : dict) (c : counters)
    (w0 : world FS) (name extension : string) :
  element !! "file" = Some (AStr name) ->
  path_exists (fs w0) (join files_base_dir name) = true ->
  filetype_guess (fs w0) (join files_base_dir name) = GuessKind extension ->
  step files_base_dir element c w0
  = if negb (String.eqb (lower (snd (splitext name)))
                        (lower ("." +:+ extension)))
    then
      let new_filename := fst (splitext name) +:+ "." +:+ extension in
      match do_rename (join files_base_dir name)
              (join files_base_dir new_filename) w0 with
      | (w', true) =>
          (<["file" := AStr new_filename]> element,
           mk_counters (total_corrected c + 1) (total_skipped c),
           print (MsgRenamed name new_filename) w',
           Corrected name new_filename)
      | (w', false) =>
          (element, skip c, print (MsgFileError (AStr name) OSError) w',
           Failed OSError)
      end
    else (element, c, print (MsgCorrect name) w0, AlreadyCorrect name).
Proof.
  intros Hf Hex Hg. unfold step. rewrite Hf, Hex, Hg. simpl negb.
  by destruct (splitext name) as [root ext].
Qed.

End ExtensionFacts.

(** ** Schema conversion: records without an id *)

Section ConvertSkips.
Import Py Doc Os OsPath Convert.
Context {FS : Type} `{OS FS}.

Lemma falsy_truthy (o : option atom) : Spec.falsy o <-> truthy_opt o = false.
Proof.
  split.
  - intros [-> | [-> | [-> | [-> | ->]]]]; reflexivity.
  - unfold Spec.falsy. destruct o as [a|]; [|auto]. destruct a as [|b|z|s].
    + auto.
    + destruct b; simpl; [discriminate|auto 6].
    + simpl. destruct (Z.eqb_spec z 0) as [->|]; [auto 6|discriminate].
    + simpl. destruct (String.eqb_spec s "") as [->|]; [auto|discriminate].
Qed.

Lemma for_items_skip (now : nat -> string) (resources_dir : string)
    (item : cave) (rest : list cave) (st : state) :
  truthy_opt (fields item !! "cave_id") = false
  \/ truthy_opt (fields item !! "contributor_number") = false ->
  for_items now resources_dir (item :: rest) st
  = for_items now resources_dir rest (warned st).
Proof.
  intros Hf. cbn [for_items].
  assert (negb (all [truthy_opt (fields item !! "cave_id");
                     truthy_opt (fields item !! "contributor_number")]) = true)
    as ->; [|done].
  unfold all. simpl. destruct Hf as [-> | ->]; [done|].
  by destruct (truthy_opt _).
Qed.

(** A document of such records only: nothing is written, asked or
    renamed. *)
Lemma for_items_all_skipped (now : nat -> string) (resources_dir : string)
    (data : list cave) :
  Forall (fun item =>
            truthy_opt (fields item !! "cave_id") = false
            \/ truthy_opt (fields item !! "contributor_number") = false) data ->
  forall st : state,
    exists st', for_items now resources_dir data st = (st', Finished)
      /\ output_data st' = output_data st
      /\ user_channel_map st' = user_channel_map st
      /\ stdin st' = stdin st
      /\ fs (w st') = fs (w st)
      /\ trace (w st') = trace (w st).
Proof.
  induction 1 as [|item data Hitem _ IH]; intros st.
  - exists st. by repeat split.
  - rewrite (for_items_skip _ _ _ _ _ Hitem).
    destruct (IH (warned st)) as (st' & -> & ? & ? & ? & ? & ?).
    exists st'. by repeat split.
Qed.

End ConvertSkips.

(** ** Skipped attachments *)

Section SkippedFacts.
Import Py Doc Os OsPath.
Context {FS : Type} `{OS FS}.

Ltac use_rename :=
  repeat match goal with
  | E : do_rename _ _ _ = (_, true) |- _ =>
      apply do_rename_true in E as (? & ? & ->)
  | E : do_rename _ _ _ = (_, false) |- _ =>
      apply do_rename_false in E as (? & ->)
  end.

Ltac no_effect := split; [reflexivity|]; simpl; eauto.

Lemma no_rename_effect_refl (w0 : world FS) : Spec.no_rename_effect w0 w0.
Proof. split; auto. Qed.

Lemma no_rename_effect_print (m : msg) (w0 : world FS) :
  Spec.no_rename_effect w0 (print m w0).
Proof. split; auto. Qed.

Lemma no_rename_effect_failed (src dst : string) (w0 : world FS)
    (ms : list msg) :
  Spec.no_rename_effect w0
    (mk_world (fs w0) (trace w0 ++ [CallRename src dst false]) ms).
Proof. split; [done|]. right. eauto. Qed.

Lemma ext_step_skipped (files_base_dir : string) (e e' : dict)
    (c c' : FixExtension.counters) (w0 w' : world FS) (o : FixExtension.outcome) :
  FixExtension.step files_base_dir e c w0 = (e', c', w', o) ->
  Spec.ext_skipped o = true ->
  e' = e /\ Spec.no_rename_effect w0 w'
  /\ c' = FixExtension.skip c.
Proof.
  unfold FixExtension.step. intros E Ho.
  repeat case_match; simplify_eq; try discriminate; use_rename;
    (split; [done|]); (split; [|done]); no_effect.
Qed.

Lemma reindex_step_skipped (base_dir : string) (m : FixIndexAndAddTime.meta)
    (e e' : dict) (l l' : FixIndexAndAddTime.locals)
    (o : FixIndexAndAddTime.outcome) :
  FixIndexAndAddTime.step base_dir m e l = (e', l', o) ->
  Spec.reindex_skipped o = true ->
  e' = e
  /\ Spec.no_rename_effect (FixIndexAndAddTime.w l) (FixIndexAndAddTime.w l')
  /\ FixIndexAndAddTime.total_renamed (FixIndexAndAddTime.counts l')
     = FixIndexAndAddTime.total_renamed (FixIndexAndAddTime.counts l).
Proof.
  unfold FixIndexAndAddTime.step. intros E Ho.
  repeat case_match; simplify_eq; try discriminate; use_rename;
    (split; [done|]); (split; [|done]); no_effect.
Qed.

Lemma convert_step_skipped (resources_dir : string)
    (cave_id channel_id user_id : atom) (e e' : dict) (i i' : Z)
    (w0 w' : world FS) (o : Convert.outcome) :
  Convert.step resources_dir cave_id channel_id user_id e i w0 = (e', i', w', o) ->
  Spec.convert_skipped o = true ->
  Spec.no_rename_effect w0 w'
  /\ exists old,
       e !! "file" = Some (AStr old)
       /\ e' = <["file" := AStr (Convert.new_filename cave_id i channel_id
                                   user_id (snd (splitext old)))]> e.
Proof.
  unfold Convert.step. intros E Ho.
  repeat case_match; simplify_eq; try discriminate; use_rename;
    (split; [|eauto]); no_effect.
Qed.

End SkippedFacts.

(** ** Which calls a run makes *)

Section TraceFacts.
Import Py Doc Os OsPath.
Context {FS : Type} `{OS FS}.

Lemma dumps_app (t1 t2 : list call) :
  Spec.dumps (t1 ++ t2) = (Spec.dumps t1 ++ Spec.dumps t2)%list.
Proof. apply List.filter_app. Qed.

Lemma dumps_rename (t : list call) (src dst : string) (ok : bool) :
  Spec.dumps (t ++ [CallRename src dst ok]) = Spec.dumps t.
Proof. rewrite dumps_app. simpl. apply app_nil_r. Qed.

Lemma do_rename_dumps (src dst : string) (w0 w' : world FS) (ok : bool) :
  do_rename src dst w0 = (w', ok) -> Spec.dumps (trace w') = Spec.dumps (trace w0).
Proof.
  unfold do_rename. destruct (rename _ _ _); intros E; inversion E; subst;
    apply dumps_rename.
Qed.

Ltac same_dumps :=
  repeat match goal with
  | E : do_rename _ _ _ = _ |- _ => apply do_rename_dumps in E
  end;
  simpl; congruence.

(** Extension fix *)




(** Full reindex *)

Lemma reindex_step_dumps (base_dir : string) (m : FixIndexAndAddTime.meta)
    (e e' : dict) (l l' : FixIndexAndAddTime.locals)
    (o : FixIndexAndAddTime.outcome) :
  FixIndexAndAddTime.step base_dir m e l = (e', l', o) ->
  Spec.dumps (trace (FixIndexAndAddTime.w l'))
  = Spec.dumps (trace (FixIndexAndAddTime.w l)).
Proof.
  unfold FixIndexAndAddTime.step. intros E.
  repeat case_match; simplify_eq; simpl; same_dumps.
Qed.

Lemma reindex_for_elements_dumps (base_dir : string)
    (m : FixIndexAndAddTime.meta) (els : list dict) :
  forall (l : FixIndexAndAddTime.locals) els' l' r,
    FixIndexAndAddTime.for_elements base_dir m els l = (els', l', r) ->
    Spec.dumps (trace (FixIndexAndAddTime.w l'))
    = Spec.dumps (trace (FixIndexAndAddTime.w l)).
Proof.
  induction els as [|x els IH]; intros l els' l' r E; simpl in E.
  - by inversion E.
  - destruct (FixIndexAndAddTime.step base_dir m x l) as [[x' l1] o] eqn:Es.
    pose proof (reindex_step_dumps _ _ _ _ _ _ _ Es) as Hd.
    destruct (FixIndexAndAddTime.for_elements base_dir m els l1)
      as [[rest' l2] r2] eqn:Er.
    pose proof (IH _ _ _ _ Er) as Hd'.
    destruct o; inversion E; subst; congruence.
Qed.

Lemma process_cave_dumps (base_dir : string) (cave cave' : Doc.cave)
    (c c' : FixIndexAndAddTime.counters) (w0 w' : world FS) :
  FixIndexAndAddTime.process_cave base_dir cave c w0 = (cave', c', w') ->
  Spec.dumps (trace w') = Spec.dumps (trace w0).
Proof.
  unfold FixIndexAndAddTime.process_cave. intros E.
  destruct (FixIndexAndAddTime.read_meta (fields cave)) as [m|ex].
  - destruct (FixIndexAndAddTime.for_elements _ _ _ _) as [[els' l] r] eqn:El.
    apply reindex_for_elements_dumps in El. simpl in El.
    repeat case_match; simplify_eq; simpl; congruence.
  - destruct ex; inversion E; subst; done.
Qed.

Lemma for_caves_dumps (base_dir : string) (data : list cave) :
  forall (c : FixIndexAndAddTime.counters) (w0 : world FS) data' c' w',
    FixIndexAndAddTime.for_caves base_dir data c w0 = (data', c', w') ->
    Spec.dumps (trace w') = Spec.dumps (trace w0)
    /\ length data' = length data.
Proof.
  induction data as [|x data IH]; intros c w0 data' c' w' E; simpl in E.
  - by inversion E.
  - destruct (FixIndexAndAddTime.process_cave base_dir x c w0)
      as [[x' c1] w1] eqn:Ex.
    apply process_cave_dumps in Ex.
    destruct (FixIndexAndAddTime.for_caves base_dir data c1 w1)
      as [[rest' c2] w2] eqn:Er.
    destruct (IH _ _ _ _ _ Er) as [Hd Hl].
    inversion E; subst. split; [congruence|]. simpl. by rewrite Hl.
Qed.

End TraceFacts.

(** ** Extension fix: a second pass *)

Section SecondPass.
Import Py Doc Os OsPath FixExtension.
Context {FS : Type} `{OS FS}.

(** The trace only grows. *)
Lemma ext_step_trace (files_base_dir : string) (e e' : dict) (c c' : counters)
    (w0 w' : world FS) (o : outcome) :
  step files_base_dir e c w0 = (e', c', w', o) ->
  exists added, trace w' = (trace w0 ++ added)%list.
Proof.
  unfold step. intros E.
  repeat case_match; simplify_eq;
    repeat match goal with
    | E : do_rename _ _ _ = (_, true) |- _ =>
        apply do_rename_true in E as (? & ? & ->)
    | E : do_rename _ _ _ = (_, false) |- _ =>
        apply do_rename_false in E as (? & ->)
    end; simpl; try (by exists []; rewrite app_nil_r); eauto.
Qed.

Lemma ext_for_elements_trace (files_base_dir : string) (els : list dict) :
  forall (c : counters) (w0 : world FS) els' c' w' r,
    for_elements files_base_dir els c w0 = (els', c', w', r) ->
    exists added, trace w' = (trace w0 ++ added)%list.
Proof.
  induction els as [|x els IH]; intros c w0 els' c' w' r E; simpl in E.
  - inversion E; subst. exists []. by rewrite app_nil_r.
  - destruct (step files_base_dir x c w0) as [[[x' c1] w1] o] eqn:Es.
    destruct (ext_step_trace _ _ _ _ _ _ _ _ Es) as [a1 Ha1].
    destruct (for_elements files_base_dir els c1 w1) as [[[rest' c2] w2] r2] eqn:Er.
    destruct (IH _ _ _ _ _ _ Er) as [a2 Ha2].
    destruct o; inversion E; subst; eauto;
      exists (a1 ++ a2)%list; by rewrite Ha2, Ha1, app_assoc.
Qed.

Lemma renames_ok_prefix (t added : list call) :
  Spec.renames_ok (t ++ added) -> Spec.renames_ok t.
Proof. unfold Spec.renames_ok. by intros [? _]%Forall_app. Qed.

(** On a settled attachment the step changes neither the attachment nor
    the file system, and corrects nothing. *)
Lemma settled_step (files_base_dir : string) (e : dict) (c : counters)
    (w0 : world FS) :
  Spec.settled files_base_dir (fs w0) e ->
  exists c' w' o,
    step files_base_dir e c w0 = (e, c', w', o)
    /\ fs w' = fs w0 /\ trace w' = trace w0
    /\ total_corrected c' = total_corrected c.
Proof.
  unfold Spec.settled, Spec.needs_fix, step.
  destruct (e !! "file") as [[| | |name]|]; try (intros _; eauto 10; fail).
  destruct (path_exists _ _); simpl; [|eauto 10].
  destruct (filetype_guess _ _) as [| |extension]; simpl; try eauto 10.
  destruct (splitext name) as [root ext]. simpl. intros ->. eauto 10.
Qed.

Lemma settled_for_elements (files_base_dir : string) (els : list dict) :
  forall (c : counters) (w0 : world FS),
    Forall (Spec.settled files_base_dir (fs w0)) els ->
    exists c' w' r,
      for_elements files_base_dir els c w0 = (els, c', w', r)
      /\ fs w' = fs w0 /\ trace w' = trace w0
      /\ total_corrected c' = total_corrected c.
Proof.
  induction els as [|x els IH]; intros c w0 Hall.
  - exists c, w0, None. by repeat split.
  - apply Forall_cons in Hall as [Hx Hels].
    destruct (settled_step files_base_dir x c w0 Hx)
      as (c1 & w1 & o & Es & Hfs & Htr & Hc).
    rewrite <- Hfs in Hels.
    destruct (IH c1 w1 Hels) as (c2 & w2 & r & Er & Hfs2 & Htr2 & Hc2).
    simpl. rewrite Es.
    destruct o; try (rewrite Er; exists c2, w2, r; repeat split; congruence).
    exists c1, w1, (Some e). by repeat split.
Qed.

Lemma cave_with_elements (cave : Doc.cave) (e0 : dict) (els0 : list dict) :
  get_elements cave = e0 :: els0 ->
  mk_cave (fields cave) (Some (e0 :: els0)) = cave.
Proof.
  destruct cave as [f [els|]]; unfold get_elements; simpl; [|done].
  by intros ->.
Qed.

Lemma settled_for_caves (files_base_dir : string) (data : list cave) :
  forall (c : counters) (w0 : world FS),
    Forall (Spec.settled files_base_dir (fs w0)) (Spec.all_elements data) ->
    exists c' w' r,
      for_caves files_base_dir data c w0 = (data, c', w', r)
      /\ fs w' = fs w0 /\ trace w' = trace w0
      /\ total_corrected c' = total_corrected c.
Proof.
  induction data as [|x data IH]; intros c w0 Hall.
  - exists c, w0, None. by repeat split.
  - unfold Spec.all_elements in Hall. simpl in Hall.
    apply Forall_app in Hall as [Hx Hrest].
    cbn [for_caves].
    destruct (get_elements x) as [|e0 els0] eqn:Eg.
    + destruct (IH c w0 Hrest) as (c2 & w2 & r & -> & ? & ? & ?).
      exists c2, w2, r. by repeat split.
    + destruct (settled_for_elements files_base_dir (e0 :: els0) c w0 Hx)
        as (c1 & w1 & r1 & -> & Hfs & Htr & Hc).
      rewrite (cave_with_elements _ _ _ Eg).
      destruct r1 as [ex|]; [exists c1, w1, (Some ex); by repeat split|].
      rewrite <- Hfs in Hrest.
      destruct (IH c1 w1 Hrest) as (c2 & w2 & r & -> & ? & ? & ?).
      exists c2, w2, r. repeat split; congruence.
Qed.

End SecondPass.

(** ** Extension fix: what the first pass leaves *)

Section FirstPass.
Import Py Doc Os OsPath FixExtension.
Context {FS : Type} `{OS FS}.
Hypothesis Hlaw : Spec.lawful_rename FS.

(** A successful rename to the corrected name keeps settled what was
    settled, among the attachments with relative names. *)
Lemma rename_keeps_settled (files_base_dir : string) (fs0 fs' : FS)
    (name new_name : string) (x : dict) :
  startswith name "/" = false -> startswith new_name "/" = false ->
  rename fs0 (join files_base_dir name) (join files_base_dir new_name) = Some fs' ->
  Spec.needs_fix files_base_dir fs' new_name = false ->
  Spec.relative x ->
  Spec.settled files_base_dir fs0 x -> Spec.settled files_base_dir fs' x.
Proof.
  intros Hrel Hrel' Hren Hnew. unfold Spec.relative, Spec.settled.
  destruct (x !! "file") as [[| | |m]|]; try done.
  intros Hm Hset.
  destruct (Hlaw _ _ _ _ Hren) as (Hdst & Hguess & Hsrc & Hother).
  destruct (decide (join files_base_dir m = join files_base_dir new_name))
    as [Eb|Nb].
  - apply join_relative_inj in Eb; [|done|done]. by subst m.
  - destruct (decide (join files_base_dir m = join files_base_dir name))
      as [Ea|Na].
    + unfold Spec.needs_fix. rewrite Ea, Hsrc; [done|].
      intros Eab. apply Nb. by rewrite Ea.
    + destruct (Hother _ Na Nb) as [He Hg].
      unfold Spec.needs_fix in *. by rewrite He, Hg.
Qed.

(** One step of the first pass, when its rename, if any, succeeded. *)
Lemma first_step (files_base_dir : string) (e e' : dict) (c c' : counters)
    (w0 w' : world FS) (o : outcome) :
  step files_base_dir e c w0 = (e', c', w', o) ->
  Spec.renames_ok (trace w') ->
  Spec.fixable (FS := FS) e ->
  Spec.settled files_base_dir (fs w') e'
  /\ Spec.relative e'
  /\ (forall x, Spec.relative x ->
        Spec.settled files_base_dir (fs w0) x ->
        Spec.settled files_base_dir (fs w') x).
Proof.
  unfold Spec.fixable, Spec.fixable_name.
  destruct (e !! "file") as [[| | |name]|] eqn:Ef;
    try (unfold step; rewrite Ef; intros E _ _; inversion E; subst;
         unfold Spec.settled, Spec.relative; rewrite Ef; done).
  destruct (path_exists (fs w0) (join files_base_dir name)) eqn:Hex.
  2: { unfold step. rewrite Ef, Hex. simpl negb. cbv iota.
       intros E _ [Hrel _]. inversion E; subst.
       unfold Spec.settled, Spec.relative, Spec.needs_fix.
       rewrite Ef. simpl fs. by rewrite Hex. }
  destruct (filetype_guess (fs w0) (join files_base_dir name))
    as [| |extension] eqn:Hg;
    try (unfold step; rewrite Ef, Hex, Hg; simpl negb; cbv iota;
         intros E _ [Hrel _]; inversion E; subst;
         unfold Spec.settled, Spec.relative, Spec.needs_fix;
         rewrite Ef; simpl fs; rewrite Hg; by rewrite andb_false_r).
  rewrite (step_detected _ _ _ _ _ _ Ef Hex Hg).
  destruct (String.eqb (lower (snd (splitext name)))
              (lower ("." +:+ extension))) eqn:Heq; simpl negb; cbv iota zeta.
  - intros E _ [Hrel _]. inversion E; subst.
    unfold Spec.settled, Spec.relative, Spec.needs_fix.
    rewrite Ef. simpl fs. rewrite Hg, Heq. by rewrite andb_false_r.
  - destruct (do_rename _ _ _) as [w1 ok] eqn:Er. destruct ok.
    + apply do_rename_true in Er as (fs' & Hren & ->).
      intros E _ [Hrel Hstable]. inversion E; subst. simpl fs.
      assert (Hrel' : startswith (fst (splitext name) +:+ "." +:+ extension) "/"
                      = false) by (by apply corrected_relative).
      destruct (Hlaw _ _ _ _ Hren) as (Hdst & Hguess & _ & _).
      assert (Hnew : Spec.needs_fix files_base_dir fs'
                       (fst (splitext name) +:+ "." +:+ extension) = false).
      { unfold Spec.needs_fix. rewrite Hdst, Hguess, Hg.
        rewrite (Hstable _ _ _ Hg). by rewrite String.eqb_refl. }
      split; [|split].
      * unfold Spec.settled. by rewrite lookup_insert_eq.
      * unfold Spec.relative. by rewrite lookup_insert_eq.
      * intros x. exact (rename_keeps_settled _ _ _ _ _ x Hrel Hrel' Hren Hnew).
    + apply do_rename_false in Er as (_ & ->).
      intros E Hok _. inversion E; subst. simpl in Hok.
      apply Forall_app in Hok as [_ Hok].
      apply Forall_cons in Hok as [Hfalse _]. discriminate.
Qed.

Lemma first_for_elements (files_base_dir : string) (els : list dict) :
  forall (c : counters) (w0 : world FS) els' c' w',
    for_elements files_base_dir els c w0 = (els', c', w', None) ->
    Spec.renames_ok (trace w') ->
    Forall (Spec.fixable (FS := FS)) els ->
    Forall (fun e => Spec.settled files_base_dir (fs w') e /\ Spec.relative e) els'
    /\ (forall x, Spec.relative x ->
          Spec.settled files_base_dir (fs w0) x ->
          Spec.settled files_base_dir (fs w') x).
Proof.
  induction els as [|x els IH]; intros c w0 els' c' w' E Hok Hfix; simpl in E.
  - inversion E; subst. split; [constructor|done].
  - apply Forall_cons in Hfix as [Hx Hels].
    destruct (step files_base_dir x c w0) as [[[x' c1] w1] o] eqn:Es.
    destruct (for_elements files_base_dir els c1 w1) as [[[rest' c2] w2] r2] eqn:Er.
    assert (E' : els' = x' :: rest' /\ c' = c2 /\ w' = w2 /\ r2 = None).
    { destruct o; inversion E; subst; done. }
    destruct E' as (-> & -> & -> & ->).
    destruct (ext_for_elements_trace _ _ _ _ _ _ _ _ Er) as [added Ha].
    assert (Hok1 : Spec.renames_ok (trace w1)).
    { rewrite Ha in Hok. by eapply renames_ok_prefix. }
    destruct (first_step _ _ _ _ _ _ _ _ Es Hok1 Hx) as (Hs & Hr & Hkeep1).
    destruct (IH _ _ _ _ _ Er Hok Hels) as [Hrest Hkeep2].
    split; [constructor; auto|auto].
Qed.

Lemma ext_for_caves_trace (files_base_dir : string) (data : list cave) :
  forall (c : counters) (w0 : world FS) data' c' w' r,
    for_caves files_base_dir data c w0 = (data', c', w', r) ->
    exists added, trace w' = (trace w0 ++ added)%list.
Proof.
  induction data as [|x data IH]; intros c w0 data' c' w' r E;
    cbn [for_caves] in E.
  - inversion E; subst. exists []. by rewrite app_nil_r.
  - destruct (get_elements x) as [|e0 els0] eqn:Eg.
    + destruct (for_caves files_base_dir data c w0) as [[[rest' c2] w2] r2] eqn:Er.
      inversion E; subst. eauto.
    + destruct (for_elements files_base_dir (e0 :: els0) c w0)
        as [[[els' c1] w1] r1] eqn:Ee.
      destruct (ext_for_elements_trace _ _ _ _ _ _ _ _ Ee) as [a1 Ha1].
      destruct r1 as [ex|]; [inversion E; subst; eauto|].
      destruct (for_caves files_base_dir data c1 w1) as [[[rest' c2] w2] r2] eqn:Er.
      destruct (IH _ _ _ _ _ _ Er) as [a2 Ha2].
      inversion E; subst. exists (a1 ++ a2)%list.
      by rewrite Ha2, Ha1, app_assoc.
Qed.

Lemma first_for_caves (files_base_dir : string) (data : list cave) :
  forall (c : counters) (w0 : world FS) data' c' w',
    for_caves files_base_dir data c w0 = (data', c', w', None) ->
    Spec.renames_ok (trace w') ->
    Forall (Spec.fixable (FS := FS)) (Spec.all_elements data) ->
    Forall (Spec.settled files_base_dir (fs w')) (Spec.all_elements data')
    /\ (forall x, Spec.relative x ->
          Spec.settled files_base_dir (fs w0) x ->
          Spec.settled files_base_dir (fs w') x).
Proof.
  induction data as [|x data IH]; intros c w0 data' c' w' E Hok Hfix;
    cbn [for_caves] in E.
  - inversion E; subst. split; [constructor|done].
  - unfold Spec.all_elements in Hfix. simpl in Hfix.
    apply Forall_app in Hfix as [Hx Hrest].
    destruct (get_elements x) as [|e0 els0] eqn:Eg.
    + destruct (for_caves files_base_dir data c w0) as [[[rest' c2] w2] r2] eqn:Er.
      inversion E; subst.
      destruct (IH _ _ _ _ _ Er Hok Hrest) as [Hall Hkeep].
      split; [|done]. unfold Spec.all_elements. simpl. rewrite Eg. done.
    + destruct (for_elements files_base_dir (e0 :: els0) c w0)
        as [[[els' c1] w1] [ex|]] eqn:Ee; [discriminate|].
      destruct (for_caves files_base_dir data c1 w1) as [[[rest' c2] w2] r2] eqn:Er.
      inversion E; subst.
      destruct (ext_for_caves_trace _ _ _ _ _ _ _ _ Er) as [added Ha].
      assert (Hok1 : Spec.renames_ok (trace w1)).
      { rewrite Ha in Hok. by eapply renames_ok_prefix. }
      destruct (first_for_elements _ _ _ _ _ _ _ Ee Hok1 Hx) as [Hels Hkeep1].
      destruct (IH _ _ _ _ _ Er Hok Hrest) as [Hall Hkeep2].
      split; [|auto].
      unfold Spec.all_elements. simpl. apply Forall_app. split; [|done].
      eapply Forall_impl; [exact Hels|]. intros y [Hy Hrel]. simpl. auto.
Qed.

(** A second pass over what a first pass without a failed rename left:
    nothing is corrected, renamed or changed. *)
Lemma second_pass_corrects_nothing (files_base_dir : string) (data data1 : list cave)
    (c0 c1 : counters) (w0 w1 : world FS) :
  for_caves files_base_dir data c0 w0 = (data1, c1, w1, None) ->
  Spec.renames_ok (trace w1) ->
  Forall (Spec.fixable (FS := FS)) (Spec.all_elements data) ->
  forall c : counters,
    exists c2 w2 r,
      for_caves files_base_dir data1 c w1 = (data1, c2, w2, r)
      /\ fs w2 = fs w1 /\ trace w2 = trace w1
      /\ total_corrected c2 = total_corrected c.
Proof.
  intros E Hok Hfix c.
  destruct (first_for_caves _ _ _ _ _ _ _ E Hok Hfix) as [Hall _].
  by apply settled_for_caves.
Qed.

End FirstPass.

(** ** The sample file system is lawful *)

Section PosixFacts.
Import Py Doc Os OsPath Posix.

Lemma posix_lawful : Spec.lawful_rename disk.
Proof.
  intros d d' src dst. simpl. unfold posix_rename.
  destruct (d !! src) as [n|] eqn:Es; [|discriminate].
  assert (Hn : n <> Dir ->
    match d !! dst with
    | Some Dir => None
    | _ => Some (<[dst := n]> (delete src d))
    end = Some d' ->
    bool_decide (is_Some (d' !! dst)) = true
    /\ match d' !! dst with
       | Some (Media bytes) =>
           match sniff bytes with Some e => GuessKind e | None => GuessNone end
       | Some (Text _) => GuessNone
       | _ => GuessRaises
       end
       = match Some n with
         | Some (Media bytes) =>
             match sniff bytes with Some e => GuessKind e | None => GuessNone end
         | Some (Text _) => GuessNone
         | _ => GuessRaises
         end
    /\ (src <> dst -> bool_decide (is_Some (d' !! src)) = false)
    /\ (forall p, p <> src -> p <> dst -> d' !! p = d !! p)).
  { intros _ E.
    assert (d' = <[dst := n]> (delete src d)) as ->.
    { destruct (d !! dst) as [[| |]|]; congruence. }
    repeat split.
    - rewrite lookup_insert_eq. by apply bool_decide_eq_true_2.
    - by rewrite lookup_insert_eq.
    - intros Hne. rewrite lookup_insert_ne, lookup_delete_eq by done.
      apply bool_decide_eq_false_2. by intros [? ?].
    - intros p Hs Hd. by rewrite lookup_insert_ne, lookup_delete_ne. }
  destruct n as [|bytes|j]; [discriminate| |];
    intros E; destruct (Hn ltac:(done) E) as (H1 & H2 & H3 & H4);
    (repeat split; [done|done|done|by rewrite H4|by rewrite H4]).
Qed.

(** The kinds the sample detector reports. *)
Lemma posix_kinds (d : disk) (p extension : string) :
  filetype_guess d p = GuessKind extension ->
  extension = "jpg" \/ extension = "png" \/ extension = "gif".
Proof.
  simpl. destruct (d !! p) as [[|bytes|j]|]; try discriminate.
  unfold sniff, magic. cbn [List.find].
  repeat (destruct (String.prefix _ bytes);
          [cbn [fmap option_fmap option_map snd]; intros E; inversion E; auto|]).
  discriminate.
Qed.

Lemma fixable_photo : Spec.fixable (FS := disk) (Samples.image "photo.jpg").
Proof.
  unfold Spec.fixable. change (Samples.image "photo.jpg" !! "file")
    with (Some (AStr "photo.jpg")).
  split; [reflexivity|].
  intros d p extension [-> | [-> | ->]]%posix_kinds; reflexivity.
Qed.

End PosixFacts.
(** ** Claims on the canonical name and the index *)

Section ReindexClaims.
Import Py Doc Os OsPath FixIndexAndAddTime.

(** C4. In full-reindex mode the name computed for a file-bearing
    attachment is [{recordId}-{attachmentIndex}_{channelId}-{userId}_{timestampMs}{extension}]:
    when the file is there and the rename succeeds the attachment takes
    that name; after a record has been processed every attachment either
    is as it was or carries that name, with the index that counts the
    file-bearing attachments of the record up to it; and for record 42,
    index 1, channel 7, user 99, 1690000000000 and [.png] the name is
    [42-1_7-99_1690000000000.png]. *)
Theorem C4_canonical_filename :
  (forall (FS : Type) (O : OS FS) (base_dir : string) (m : meta) (e : dict)
          (l : locals) (old : string) (fs' : FS),
      let new := Spec.canonical_filename (cave_id m) (media_index l + 1)
                   (channel_id m) (user_id m) (timestamp_ms m)
                   (snd (splitext old)) in
      is_media e = true ->
      e !! "file" = Some (AStr old) ->
      path_exists (fs (w l)) (join base_dir old) = true ->
      rename (fs (w l)) (join base_dir old) (join base_dir new) = Some fs' ->
      exists l', step base_dir m e l
                 = (<["file" := AStr new]> e, l', Renamed old new))
  /\ (forall (FS : Type) (O : OS FS) (base_dir : string) (cave cave' : Doc.cave)
             (c c' : counters) (w0 w' : world FS),
        process_cave base_dir cave c w0 = (cave', c', w') ->
        forall (i : nat) (e e' : dict),
          get_elements cave !! i = Some e -> get_elements cave' !! i = Some e' ->
          e' = e
          \/ exists m old,
               read_meta (fields cave) = Ret m
               /\ is_media e = true
               /\ e !! "file" = Some (AStr old)
               /\ e' = <["file" := AStr (Spec.canonical_filename (cave_id m)
                           (Spec.attachment_index is_media (get_elements cave) i)
                           (channel_id m) (user_id m) (timestamp_ms m)
                           (snd (splitext old)))]> e)
  /\ new_filename Samples.meta42 1 ".png" = "42-1_7-99_1690000000000.png".
Proof.
  split; [|split].
  - intros FS O base_dir m e l old fs' new Hm Hf Hex Hren.
    unfold step. rewrite Hm, Hf, Hex, new_filename_canonical. fold new.
    rewrite (do_rename_some _ _ _ _ Hren). eauto.
  - intros FS O. apply process_cave_names.
  - reflexivity.
Qed.



End ReindexClaims.

(** ** Claims on the extension fix and the conversion *)

Section ExtensionClaims.
Import Py Doc Os OsPath.


(** C10. In the schema conversion a record whose [cave_id] or
    [contributor_number] is falsy (absent, [None], the empty string, the
    number 0) is passed over with a warning: the loop goes on with the
    next record in the same state, nothing is asked, renamed or put in
    the output; a document of such records alone gives an empty output;
    and a record with id 0 is treated as the same record without id. *)
Theorem C10_falsy_ids_skipped :
  (forall (FS : Type) (O : OS FS) (now : nat -> string) (resources_dir : string)
          (item : cave) (rest : list cave) (st : Convert.state),
      Spec.falsy (fields item !! "cave_id")
      \/ Spec.falsy (fields item !! "contributor_number") ->
      Convert.for_items now resources_dir (item :: rest) st
      = Convert.for_items now resources_dir rest (Convert.warned st))
  /\ (forall (FS : Type) (O : OS FS) (now : nat -> string)
             (resources_dir : string) (data : list cave) (st : Convert.state),
        Forall (fun item =>
                  Spec.falsy (fields item !! "cave_id")
                  \/ Spec.falsy (fields item !! "contributor_number")) data ->
        exists st',
          Convert.for_items now resources_dir data st = (st', Convert.Finished)
          /\ Convert.output_data st' = Convert.output_data st
          /\ Convert.user_channel_map st' = Convert.user_channel_map st
          /\ Convert.stdin st' = Convert.stdin st
          /\ fs (Convert.w st') = fs (Convert.w st)
          /\ trace (Convert.w st') = trace (Convert.w st))
  /\ (forall (FS : Type) (O : OS FS) (now : nat -> string)
             (resources_dir : string) (item : cave) (rest : list cave)
             (st : Convert.state),
        fields item !! "cave_id" = Some (AInt 0) ->
        Convert.for_items now resources_dir (item :: rest) st
        = Convert.for_items now resources_dir
            (mk_cave (delete "cave_id" (fields item)) (elements item) :: rest) st).
Proof.
  repeat apply conj.
  - intros FS O now resources_dir item rest st Hf. apply for_items_skip.
    destruct Hf as [Hf|Hf]; [left|right]; by apply falsy_truthy.
  - intros FS O now resources_dir data st Hall.
    apply for_items_all_skipped.
    eapply Forall_impl; [exact Hall|]. intros item Hf. simpl in Hf.
    destruct Hf as [Hf|Hf]; [left|right]; by apply falsy_truthy.
  - intros FS O now resources_dir item rest st H0.
    rewrite !for_items_skip; [done| |].
    + left. simpl. by rewrite lookup_delete_eq.
    + left. by rewrite H0.
Qed.

End ExtensionClaims.

Section ReindexWitnesses.
Import Py Doc Os OsPath FixIndexAndAddTime Posix.

Lemma C4_canonical_filename_witness :
  (exists l',
     step "cave" Samples.meta42 (Samples.image "old.png")
       (mk_locals 0 false (mk_counters 0 0 0)
          (boot (<["cave/old.png" := Media png_bytes]> ∅)))
     = (<["file" := AStr "42-1_7-99_1690000000000.png"]> (Samples.image "old.png"),
        l', Renamed "old.png" "42-1_7-99_1690000000000.png"))
  /\ (Samples.renamed_photo = Samples.image "photo.jpg"
      \/ exists m old,
           read_meta (fields Samples.rec5) = Ret m
           /\ is_media (Samples.image "photo.jpg") = true
           /\ Samples.image "photo.jpg" !! "file" = Some (AStr old)
           /\ Samples.renamed_photo
              = <["file" := AStr (Spec.canonical_filename (cave_id m)
                    (Spec.attachment_index is_media (get_elements Samples.rec5) 0)
                    (channel_id m) (user_id m) (timestamp_ms m)
                    (snd (splitext old)))]> (Samples.image "photo.jpg")).
Proof.
  split.
  - apply (proj1 C4_canonical_filename disk posix "cave" Samples.meta42
             (Samples.image "old.png")
             (mk_locals 0 false (mk_counters 0 0 0)
                (boot (<["cave/old.png" := Media png_bytes]> ∅)))
             "old.png"
             (<["cave/42-1_7-99_1690000000000.png" := Media png_bytes]> ∅));
      vm_compute; reflexivity.
  - apply (proj1 (proj2 C4_canonical_filename) disk posix "cave" Samples.rec5
             (fst (fst Samples.run5_cave)) (mk_counters 0 0 0)
             (snd (fst Samples.run5_cave)) (boot Samples.disk5)
             (snd Samples.run5_cave) ltac:(vm_compute; reflexivity)
             0%nat (Samples.image "photo.jpg") Samples.renamed_photo
             ltac:(reflexivity) ltac:(vm_compute; reflexivity)).
Defined.

End ReindexWitnesses.

Section ReindexWitnesses2.
Import Py Doc Os OsPath FixIndexAndAddTime Posix.



End ReindexWitnesses2.

Section ExtensionWitnesses.
Import Py Doc Os OsPath Posix.


Lemma C10_falsy_ids_skipped_witness :
  Convert.for_items Samples.clock "resources" [Samples.item0] Samples.start0
  = Convert.for_items Samples.clock "resources" [] (Convert.warned Samples.start0)
  /\ (exists st',
        Convert.for_items Samples.clock "resources"
          [Samples.item0; Samples.item0_noid] Samples.start0
        = (st', Convert.Finished)
        /\ Convert.output_data st' = Convert.output_data Samples.start0
        /\ Convert.user_channel_map st' = Convert.user_channel_map Samples.start0
        /\ Convert.stdin st' = Convert.stdin Samples.start0
        /\ fs (Convert.w st') = fs (Convert.w Samples.start0)
        /\ trace (Convert.w st') = trace (Convert.w Samples.start0))
  /\ Convert.for_items Samples.clock "resources" [Samples.item0] Samples.start0
     = Convert.for_items Samples.clock "resources" [Samples.item0_noid]
         Samples.start0.
Proof.
  split; [|split].
  - apply (proj1 C10_falsy_ids_skipped disk posix Samples.clock "resources"
             Samples.item0 [] Samples.start0).
    left. unfold Spec.falsy. do 3 right. left. reflexivity.
  - apply (proj1 (proj2 C10_falsy_ids_skipped) disk posix Samples.clock
             "resources" [Samples.item0; Samples.item0_noid] Samples.start0).
    apply Forall_cons_2; [|apply Forall_cons_2; [|apply Forall_nil_2]].
    + left. unfold Spec.falsy. do 3 right. left. reflexivity.
    + left. unfold Spec.falsy. left. reflexivity.
  - apply (proj2 (proj2 C10_falsy_ids_skipped) disk posix Samples.clock
             "resources" Samples.item0 [] Samples.start0).
    reflexivity.
Defined.

End ExtensionWitnesses.

(** ** Claims on skipped attachments *)

Section SkippedClaims.
Import Py Doc Os OsPath Posix.

(** C2, as stated, fails in [convert.py]: an image whose file is missing
    ends as skipped, no rename is attempted, and yet the element that goes
    to the output document carries the new name. *)
Lemma C2_counterexample :
  let r := Convert.step "resources" (AInt 7) (AStr "chan") (AStr "10001")
             (Samples.image "gone.jpg") 1 (boot Samples.disk0) in
  Spec.convert_skipped (snd r) = true
  /\ snd r = Convert.Missing "gone.jpg" "7_1_chan_10001.jpg"
  /\ trace (snd (fst r)) = []
  /\ Samples.image "gone.jpg" !! "file" = Some (AStr "gone.jpg")
  /\ fst (fst (fst r)) !! "file" = Some (AStr "7_1_chan_10001.jpg")
  /\ fst (fst (fst r)) !! "file" <> Samples.image "gone.jpg" !! "file".
Proof. vm_compute. repeat split; discriminate. Qed.

(** C2, amended.  In extension-fix and in full-reindex mode an attachment
    that ends skipped (file missing, type not detected, rename failed)
    keeps its element unchanged, and the file system is as before: no
    rename was attempted, or the one attempted failed.  In [convert.py]
    the file system is as before as well, but the element written to the
    output takes the new name all the same. *)
Theorem C2_skipped_keeps_filename :
  (forall (FS : Type) (O : OS FS) (files_base_dir : string) (e e' : dict)
          (c c' : FixExtension.counters) (w0 w' : world FS)
          (o : FixExtension.outcome),
      FixExtension.step files_base_dir e c w0 = (e', c', w', o) ->
      Spec.ext_skipped o = true ->
      e' = e /\ Spec.no_rename_effect w0 w' /\ c' = FixExtension.skip c)
  /\ (forall (FS : Type) (O : OS FS) (base_dir : string)
             (m : FixIndexAndAddTime.meta) (e e' : dict)
             (l l' : FixIndexAndAddTime.locals) (o : FixIndexAndAddTime.outcome),
        FixIndexAndAddTime.step base_dir m e l = (e', l', o) ->
        Spec.reindex_skipped o = true ->
        e' = e
        /\ Spec.no_rename_effect (FixIndexAndAddTime.w l) (FixIndexAndAddTime.w l')
        /\ FixIndexAndAddTime.total_renamed (FixIndexAndAddTime.counts l')
           = FixIndexAndAddTime.total_renamed (FixIndexAndAddTime.counts l))
  /\ (forall (FS : Type) (O : OS FS) (resources_dir : string)
             (cave_id channel_id user_id : atom) (e e' : dict) (i i' : Z)
             (w0 w' : world FS) (o : Convert.outcome),
        Convert.step resources_dir cave_id channel_id user_id e i w0
        = (e', i', w', o) ->
        Spec.convert_skipped o = true ->
        Spec.no_rename_effect w0 w'
        /\ exists old,
             e !! "file" = Some (AStr old)
             /\ e' = <["file" := AStr (Convert.new_filename cave_id i channel_id
                                         user_id (snd (splitext old)))]> e).
Proof.
  repeat apply conj.
  - intros FS O. apply ext_step_skipped.
  - intros FS O. apply reindex_step_skipped.
  - intros FS O. apply convert_step_skipped.
Qed.

Lemma C2_skipped_keeps_filename_witness :
  (fst (fst (fst Samples.ext_gone)) = Samples.image "gone.jpg"
   /\ Spec.no_rename_effect (boot Samples.diskJPG) (snd (fst Samples.ext_gone))
   /\ snd (fst (fst Samples.ext_gone))
      = FixExtension.skip (FixExtension.mk_counters 0 0))
  /\ (fst (fst Samples.reindex_gone) = Samples.image "gone.jpg"
      /\ Spec.no_rename_effect (FixIndexAndAddTime.w Samples.locals42c)
           (FixIndexAndAddTime.w (snd (fst Samples.reindex_gone)))
      /\ FixIndexAndAddTime.total_renamed
           (FixIndexAndAddTime.counts (snd (fst Samples.reindex_gone)))
         = FixIndexAndAddTime.total_renamed
             (FixIndexAndAddTime.counts Samples.locals42c))
  /\ (Spec.no_rename_effect (boot Samples.disk0) (snd (fst Samples.convert_gone))
      /\ exists old,
           Samples.image "gone.jpg" !! "file" = Some (AStr old)
           /\ fst (fst (fst Samples.convert_gone))
              = <["file" := AStr (Convert.new_filename (AInt 7) 1 (AStr "chan")
                                    (AStr "10001") (snd (splitext old)))]>
                  (Samples.image "gone.jpg")).
Proof.
  split; [|split].
  - apply (proj1 C2_skipped_keeps_filename disk posix "cave"
             (Samples.image "gone.jpg") _ (FixExtension.mk_counters 0 0) _
             (boot Samples.diskJPG) _ (FixExtension.Missing "gone.jpg"));
      vm_compute; reflexivity.
  - apply (proj1 (proj2 C2_skipped_keeps_filename) disk posix "cave"
             Samples.meta42 (Samples.image "gone.jpg") _ Samples.locals42c _
             (FixIndexAndAddTime.Missing "gone.jpg"));
      vm_compute; reflexivity.
  - apply (proj2 (proj2 C2_skipped_keeps_filename) disk posix "resources"
             (AInt 7) (AStr "chan") (AStr "10001") (Samples.image "gone.jpg")
             _ 1 (snd (fst (fst Samples.convert_gone))) (boot Samples.disk0) _
             (Convert.Missing "gone.jpg" "7_1_chan_10001.jpg"));
      vm_compute; reflexivity.
Defined.

End SkippedClaims.

(** ** Claims on the final write *)

Section WriteClaims.
Import Py Doc Os OsPath Posix.

Lemma do_dump_trace {FS : Type} `{OS FS} (path : string) (j : json_text)
    (w0 w' : world FS) (ok : bool) :
  do_dump path j w0 = (w', ok) ->
  trace w' = (trace w0 ++ [CallDump path j ok])%list.
Proof.
  unfold do_dump. destruct (json_dump _ _ _); intros E; by inversion E.
Qed.





End WriteClaims.

(** ** Claims on errors *)

Section ErrorClaims.
Import Py Doc Os OsPath Posix.

(** C5, as stated, fails in [FixIndexAndAddTime.py]: the rename of the
    first image of the record fails, the second image, whose file is
    there, is never visited, and the failure is not counted. *)
Lemma C5_counterexample :
  get_elements Samples.rec9 = [Samples.image "x.jpg"; Samples.image "y.jpg"]
  /\ path_exists Samples.disk9 "cave/y.jpg" = true
  /\ trace (snd Samples.run9)
     = [CallRename "cave/x.jpg" "cave/9-1_c1-u1_1672531200000.jpg" false]
  /\ fst (fst Samples.run9) = Samples.rec9
  /\ console (snd Samples.run9) = [MsgEntryError (AInt 9) OSError]
  /\ snd (fst Samples.run9) = FixIndexAndAddTime.mk_counters 0 0 0.
Proof. vm_compute. repeat split. Qed.

(** C5, amended.  In extension-fix mode a missing file, an undetected
    type and a failed rename are each reported and counted as skipped and
    the loop goes on with the next attachment.  In full-reindex mode a
    missing file is reported, counted, and the loop goes on; a failed
    rename ends the loop over this record: the attachments after it are
    left unvisited, the failure is reported for the record and not
    counted, and the run goes on with the next record. *)
Theorem C5_errors_do_not_abort :
  (forall (FS : Type) (O : OS FS) (files_base_dir : string) (e e' : dict)
          (rest : list dict) (c c' : FixExtension.counters) (w0 w' : world FS)
          (o : FixExtension.outcome),
      FixExtension.step files_base_dir e c w0 = (e', c', w', o) ->
      Spec.ext_skipped o = true ->
      (exists m, console w' = (console w0 ++ [m])%list)
      /\ c' = FixExtension.skip c
      /\ FixExtension.for_elements files_base_dir (e :: rest) c w0
         = (let '(rest', c'', w'', r) :=
              FixExtension.for_elements files_base_dir rest c' w' in
            (e' :: rest', c'', w'', r)))
  /\ (forall (FS : Type) (O : OS FS) (base_dir : string)
             (m : FixIndexAndAddTime.meta) (e e' : dict) (rest : list dict)
             (l l' : FixIndexAndAddTime.locals) (old : string),
        FixIndexAndAddTime.step base_dir m e l
        = (e', l', FixIndexAndAddTime.Missing old) ->
        console (FixIndexAndAddTime.w l')
        = (console (FixIndexAndAddTime.w l) ++ [MsgMissing old])%list
        /\ FixIndexAndAddTime.total_skipped (FixIndexAndAddTime.counts l')
           = FixIndexAndAddTime.total_skipped (FixIndexAndAddTime.counts l) + 1
        /\ FixIndexAndAddTime.for_elements base_dir m (e :: rest) l
           = (let '(rest', l'', r) :=
                FixIndexAndAddTime.for_elements base_dir m rest l' in
              (e' :: rest', l'', r)))
  /\ (forall (FS : Type) (O : OS FS) (base_dir : string)
             (m : FixIndexAndAddTime.meta) (e e' : dict) (rest : list dict)
             (l l' : FixIndexAndAddTime.locals) (ex : exn),
        FixIndexAndAddTime.step base_dir m e l
        = (e', l', FixIndexAndAddTime.Raised ex) ->
        FixIndexAndAddTime.counts l' = FixIndexAndAddTime.counts l
        /\ FixIndexAndAddTime.for_elements base_dir m (e :: rest) l
           = (e' :: rest, l', Some ex))
  /\ (forall (FS : Type) (O : OS FS) (base_dir : string) (cave : Doc.cave)
             (rest : list Doc.cave) (c : FixIndexAndAddTime.counters)
             (w0 : world FS) (m : FixIndexAndAddTime.meta) (els' : list dict)
             (l : FixIndexAndAddTime.locals),
        FixIndexAndAddTime.read_meta (fields cave) = Ret m ->
        FixIndexAndAddTime.for_elements base_dir m (get_elements cave)
          (FixIndexAndAddTime.mk_locals 0 false c w0) = (els', l, Some OSError) ->
        exists cave',
          FixIndexAndAddTime.for_caves base_dir (cave :: rest) c w0
          = (let '(rest', c'', w'') :=
               FixIndexAndAddTime.for_caves base_dir rest
                 (FixIndexAndAddTime.counts l)
                 (print (MsgEntryError (get (fields cave) "id" (AStr "N/A")) OSError)
                    (FixIndexAndAddTime.w l)) in
             (cave' :: rest', c'', w''))).
Proof.
  repeat apply conj.
  - intros FS O files_base_dir e e' rest c c' w0 w' o Es Ho.
    destruct (ext_step_skipped _ _ _ _ _ _ _ _ Es Ho) as (-> & _ & ->).
    split; [|split; [done|]].
    + revert Es. unfold FixExtension.step. intros Es.
      repeat case_match; simplify_eq; try discriminate;
        repeat match goal with
        | E : do_rename _ _ _ = (_, false) |- _ =>
            apply do_rename_false in E as (? & ->)
        end; simpl; eauto.
    + simpl. rewrite Es. by destruct o.
  - intros FS O base_dir m e e' rest l l' old Es. simpl. rewrite Es.
    split; [|split; [|done]];
      revert Es; unfold FixIndexAndAddTime.step; intros Es;
      repeat case_match; simplify_eq; done.
  - intros FS O base_dir m e e' rest l l' ex Es. simpl. rewrite Es.
    split; [|done].
    revert Es; unfold FixIndexAndAddTime.step; intros Es;
      repeat case_match; simplify_eq; done.
  - intros FS O base_dir cave rest c w0 m els' l Hm El.
    cbn [FixIndexAndAddTime.for_caves].
    unfold FixIndexAndAddTime.process_cave. rewrite Hm, El.
    eexists. reflexivity.
Qed.

Lemma C5_errors_do_not_abort_witness :
  ((exists m, console (snd (fst Samples.ext_gone))
              = (console (boot Samples.diskJPG) ++ [m])%list)
   /\ snd (fst (fst Samples.ext_gone))
      = FixExtension.skip (FixExtension.mk_counters 0 0)
   /\ FixExtension.for_elements "cave"
        [Samples.image "gone.jpg"; Samples.image "photo.JPG"]
        (FixExtension.mk_counters 0 0) (boot Samples.diskJPG)
      = (let '(rest', c'', w'', r) :=
           FixExtension.for_elements "cave" [Samples.image "photo.JPG"]
             (snd (fst (fst Samples.ext_gone))) (snd (fst Samples.ext_gone)) in
         (fst (fst (fst Samples.ext_gone)) :: rest', c'', w'', r)))
  /\ (console (FixIndexAndAddTime.w (snd (fst Samples.reindex_gone)))
      = (console (FixIndexAndAddTime.w Samples.locals42c)
         ++ [MsgMissing "gone.jpg"])%list
      /\ FixIndexAndAddTime.total_skipped
           (FixIndexAndAddTime.counts (snd (fst Samples.reindex_gone)))
         = FixIndexAndAddTime.total_skipped
             (FixIndexAndAddTime.counts Samples.locals42c) + 1
      /\ FixIndexAndAddTime.for_elements "cave" Samples.meta42
           [Samples.image "gone.jpg"; Samples.image "y.jpg"] Samples.locals42c
         = (let '(rest', l'', r) :=
              FixIndexAndAddTime.for_elements "cave" Samples.meta42
                [Samples.image "y.jpg"] (snd (fst Samples.reindex_gone)) in
            (fst (fst Samples.reindex_gone) :: rest', l'', r)))
  /\ (FixIndexAndAddTime.counts (snd (fst Samples.step42))
      = FixIndexAndAddTime.counts Samples.locals42
      /\ FixIndexAndAddTime.for_elements "cave" Samples.meta42
           [Samples.image "x.jpg"; Samples.image "y.jpg"] Samples.locals42
         = ([fst (fst Samples.step42); Samples.image "y.jpg"],
            snd (fst Samples.step42), Some OSError)).
Proof.
  split; [|split].
  - apply (proj1 C5_errors_do_not_abort disk posix "cave"
             (Samples.image "gone.jpg") (fst (fst (fst Samples.ext_gone)))
             [Samples.image "photo.JPG"] (FixExtension.mk_counters 0 0)
             (snd (fst (fst Samples.ext_gone))) (boot Samples.diskJPG)
             (snd (fst Samples.ext_gone)) (FixExtension.Missing "gone.jpg"));
      vm_compute; reflexivity.
  - apply (proj1 (proj2 C5_errors_do_not_abort) disk posix "cave"
             Samples.meta42 (Samples.image "gone.jpg")
             (fst (fst Samples.reindex_gone)) [Samples.image "y.jpg"]
             Samples.locals42c (snd (fst Samples.reindex_gone)) "gone.jpg").
    vm_compute. reflexivity.
  - apply (proj1 (proj2 (proj2 C5_errors_do_not_abort)) disk posix "cave"
             Samples.meta42 (Samples.image "x.jpg") (fst (fst Samples.step42))
             [Samples.image "y.jpg"] Samples.locals42 (snd (fst Samples.step42))
             OSError).
    vm_compute. reflexivity.
Defined.

(** C6, as stated, fails in [FixIndexAndAddTime.py]: the first record has
    no [id], the run warns, goes on, renames the file of the second record
    and writes the document. *)
Lemma C6_counterexample :
  fields Samples.rec_noid !! "id" = None
  /\ json_load Samples.disk6 "cave_export.json"
     = Loaded (JsonDoc [Samples.rec_noid; Samples.rec5])
  /\ fst Samples.run6 = FixIndexAndAddTime.Done (FixIndexAndAddTime.mk_counters 1 0 1)
  /\ Spec.renames (trace (snd Samples.run6))
     = [CallRename "cave/photo.jpg" "cave/5-1_c1-u1_1672531200000.jpg" true]
  /\ length (Spec.dumps (trace (snd Samples.run6))) = 1%nat
  /\ fs (snd Samples.run6) !! "cave/photo.jpg" = None
  /\ console (snd Samples.run6)
     = [MsgEntryKeyError (KeyError "id");
        MsgRenamed "photo.jpg" "5-1_c1-u1_1672531200000.jpg";
        MsgSummary [1; 1; 0]; MsgSaved "cave_export_updated.json"].
Proof. vm_compute. repeat split. Qed.

(** C6, amended.  A missing input document or media directory ends the
    run with a diagnostic and nothing else done, in both scripts; invalid
    JSON does so in extension-fix mode and ends the full-reindex run by the
    uncaught parse error, nothing done either.  A record without [id] or
    [time] does not end the run: full-reindex mode warns, leaves that
    record, the counters and the file system as they are, and goes on with
    the next record. *)
Theorem C6_abort_before_mutation :
  (forall (FS : Type) (O : OS FS) (json_file_path files_base_dir : string)
          (w0 : world FS),
      path_exists (fs w0) json_file_path = false
      \/ path_isdir (fs w0) files_base_dir = false
      \/ json_load (fs w0) json_file_path = JSONDecodeError ->
      exists m,
        FixExtension.correct_files_and_update_json json_file_path files_base_dir w0
        = (FixExtension.Diagnosed, None, print m w0))
  /\ (forall (FS : Type) (O : OS FS)
             (input_json_path output_json_path media_dir : string) (w0 : world FS),
        path_exists (fs w0) input_json_path = false
        \/ path_isdir (fs w0) media_dir = false ->
        exists m,
          FixIndexAndAddTime.main input_json_path output_json_path media_dir w0
          = (FixIndexAndAddTime.Diagnosed, print m w0))
  /\ (forall (FS : Type) (O : OS FS)
             (input_json_path output_json_path media_dir : string) (w0 : world FS),
        path_exists (fs w0) input_json_path = true ->
        path_isdir (fs w0) media_dir = true ->
        json_load (fs w0) input_json_path = JSONDecodeError ->
        FixIndexAndAddTime.main input_json_path output_json_path media_dir w0
        = (FixIndexAndAddTime.Crashed, w0))
  /\ (forall (FS : Type) (O : OS FS) (base_dir : string) (cave : Doc.cave)
             (rest : list Doc.cave) (c : FixIndexAndAddTime.counters)
             (w0 : world FS),
        fields cave !! "id" = None \/ fields cave !! "time" = None ->
        exists k,
          FixIndexAndAddTime.process_cave base_dir cave c w0
          = (cave, c, print (MsgEntryKeyError (KeyError k)) w0)
          /\ FixIndexAndAddTime.for_caves base_dir (cave :: rest) c w0
             = (let '(rest', c', w') :=
                  FixIndexAndAddTime.for_caves base_dir rest c
                    (print (MsgEntryKeyError (KeyError k)) w0) in
                (cave :: rest', c', w'))).
Proof.
  repeat apply conj.
  - intros FS O json_file_path files_base_dir w0 Hbad.
    unfold FixExtension.correct_files_and_update_json.
    destruct (path_exists _ _); simpl; [|eauto].
    destruct (path_isdir _ _); simpl; [|eauto].
    destruct Hbad as [? | [? | ->]]; try discriminate. eauto.
  - intros FS O input_json_path output_json_path media_dir w0 Hbad.
    unfold FixIndexAndAddTime.main.
    destruct (path_exists _ _); simpl; [|eauto].
    destruct (path_isdir _ _); simpl; [|eauto].
    destruct Hbad; discriminate.
  - intros FS O input_json_path output_json_path media_dir w0 Hin Hdir Hload.
    unfold FixIndexAndAddTime.main. by rewrite Hin, Hdir, Hload.
  - intros FS O base_dir cave rest c w0 Hmiss.
    assert (Hk : exists k, FixIndexAndAddTime.read_meta (fields cave)
                           = Exc (KeyError k)).
    { unfold FixIndexAndAddTime.read_meta, getitem.
      destruct (fields cave !! "id") as [a|] eqn:Eid; simpl; [|eauto].
      destruct Hmiss as [? | ->]; [discriminate|]. simpl. eauto. }
    destruct Hk as [k Hk]. exists k.
    assert (Hp : FixIndexAndAddTime.process_cave base_dir cave c w0
                 = (cave, c, print (MsgEntryKeyError (KeyError k)) w0)).
    { unfold FixIndexAndAddTime.process_cave. by rewrite Hk. }
    split; [done|]. cbn [FixIndexAndAddTime.for_caves]. by rewrite Hp.
Qed.

Lemma C6_abort_before_mutation_witness :
  (exists m,
     FixExtension.correct_files_and_update_json "cave_export.json" "cave"
       (boot Samples.disk_badjson)
     = (FixExtension.Diagnosed, None, print m (boot Samples.disk_badjson)))
  /\ (exists m,
        FixIndexAndAddTime.main "cave_export.json" "cave_export_updated.json"
          "cave" (boot Samples.disk_nojson)
        = (FixIndexAndAddTime.Diagnosed, print m (boot Samples.disk_nojson)))
  /\ FixIndexAndAddTime.main "cave_export.json" "cave_export_updated.json"
       "cave" (boot Samples.disk_badjson)
     = (FixIndexAndAddTime.Crashed, boot Samples.disk_badjson)
  /\ (exists k,
        FixIndexAndAddTime.process_cave "cave" Samples.rec_noid
          (FixIndexAndAddTime.mk_counters 0 0 0) (boot Samples.disk6)
        = (Samples.rec_noid, FixIndexAndAddTime.mk_counters 0 0 0,
           print (MsgEntryKeyError (KeyError k)) (boot Samples.disk6))
        /\ FixIndexAndAddTime.for_caves "cave" [Samples.rec_noid; Samples.rec5]
             (FixIndexAndAddTime.mk_counters 0 0 0) (boot Samples.disk6)
           = (let '(rest', c', w') :=
                FixIndexAndAddTime.for_caves "cave" [Samples.rec5]
                  (FixIndexAndAddTime.mk_counters 0 0 0)
                  (print (MsgEntryKeyError (KeyError k)) (boot Samples.disk6)) in
              (Samples.rec_noid :: rest', c', w'))).
Proof.
  split; [|split; [|split]].
  - apply (proj1 C6_abort_before_mutation disk posix "cave_export.json" "cave"
             (boot Samples.disk_badjson)).
    right. right. vm_compute. reflexivity.
  - apply (proj1 (proj2 C6_abort_before_mutation) disk posix "cave_export.json"
             "cave_export_updated.json" "cave" (boot Samples.disk_nojson)).
    left. vm_compute. reflexivity.
  - apply (proj1 (proj2 (proj2 C6_abort_before_mutation)) disk posix
             "cave_export.json" "cave_export_updated.json" "cave"
             (boot Samples.disk_badjson)); vm_compute; reflexivity.
  - apply (proj2 (proj2 (proj2 C6_abort_before_mutation)) disk posix "cave"
             Samples.rec_noid [Samples.rec5]
             (FixIndexAndAddTime.mk_counters 0 0 0) (boot Samples.disk6)).
    left. reflexivity.
Defined.

End ErrorClaims.

(** ** Claims on the second run *)

Section IdempotenceClaims.
Import Py Doc Os OsPath Posix.

(** C1, as stated, fails in [FixIndexAndAddTime.py].  The second run over
    what the first run of the end-to-end example left finds the attachment
    under its canonical name: target and current name are equal, and yet
    [os.rename] is called, the attachment is counted as renamed and
    reported, and the document is written again. *)
Lemma C1_counterexample :
  Samples.file_fields
    (Samples.stored (fs (snd Samples.run5)) "cave_export_updated.json")
  = [Some (AStr "5-1_c1-u1_1672531200000.jpg")]
  /\ fst Samples.run5_again
     = FixIndexAndAddTime.Done (FixIndexAndAddTime.mk_counters 1 0 1)
  /\ Spec.renames (trace (snd Samples.run5_again))
     = [CallRename "cave/5-1_c1-u1_1672531200000.jpg"
          "cave/5-1_c1-u1_1672531200000.jpg" true]
  /\ console (snd Samples.run5_again)
     = [MsgRenamed "5-1_c1-u1_1672531200000.jpg" "5-1_c1-u1_1672531200000.jpg";
        MsgSummary [1; 1; 0]; MsgSaved "cave_export_updated.json"].
Proof. vm_compute. repeat split. Qed.

(** C1, amended.  For an attachment whose target name is its current
    name the document is left as it is.  In extension-fix mode no rename
    is made and nothing is counted, and a second pass over the document
    and the file system a first pass left corrects nothing, when the
    first pass met no failed rename, renames behave as renames, and the
    names are relative and take the detected extension as their
    extension.  In full-reindex mode target and current name are not
    compared: when the file is there [os.rename] is called with the same
    source and target and the attachment is counted as renamed. *)
Theorem C1_target_equals_current :
  (forall (FS : Type) (O : OS FS) (files_base_dir : string) (element : dict)
          (c : FixExtension.counters) (w0 : world FS) (name extension : string),
      element !! "file" = Some (AStr name) ->
      path_exists (fs w0) (join files_base_dir name) = true ->
      filetype_guess (fs w0) (join files_base_dir name) = GuessKind extension ->
      fst (splitext name) +:+ "." +:+ extension = name ->
      FixExtension.step files_base_dir element c w0
      = (element, c, print (MsgCorrect name) w0, FixExtension.AlreadyCorrect name))
  /\ (forall (FS : Type) (O : OS FS) (base_dir : string)
             (m : FixIndexAndAddTime.meta) (e : dict)
             (l : FixIndexAndAddTime.locals) (name : string) (fs' : FS),
        FixIndexAndAddTime.is_media e = true ->
        e !! "file" = Some (AStr name) ->
        FixIndexAndAddTime.new_filename m (FixIndexAndAddTime.media_index l + 1)
          (snd (splitext name)) = name ->
        path_exists (fs (FixIndexAndAddTime.w l)) (join base_dir name) = true ->
        rename (fs (FixIndexAndAddTime.w l)) (join base_dir name)
          (join base_dir name) = Some fs' ->
        exists l',
          FixIndexAndAddTime.step base_dir m e l
          = (e, l', FixIndexAndAddTime.Renamed name name)
          /\ trace (FixIndexAndAddTime.w l')
             = (trace (FixIndexAndAddTime.w l)
                ++ [CallRename (join base_dir name) (join base_dir name) true])%list
          /\ FixIndexAndAddTime.total_renamed (FixIndexAndAddTime.counts l')
             = FixIndexAndAddTime.total_renamed (FixIndexAndAddTime.counts l) + 1)
  /\ (forall (FS : Type) (O : OS FS) (files_base_dir : string)
             (data data1 : list cave) (c0 c1 : FixExtension.counters)
             (w0 w1 : world FS),
        Spec.lawful_rename FS ->
        FixExtension.for_caves files_base_dir data c0 w0 = (data1, c1, w1, None) ->
        Spec.renames_ok (trace w1) ->
        Forall (Spec.fixable (FS := FS)) (Spec.all_elements data) ->
        forall c : FixExtension.counters,
          exists c2 w2 r,
            FixExtension.for_caves files_base_dir data1 c w1 = (data1, c2, w2, r)
            /\ fs w2 = fs w1 /\ trace w2 = trace w1
            /\ FixExtension.total_corrected c2 = FixExtension.total_corrected c).
Proof.
  repeat apply conj.
  - intros FS O files_base_dir element c w0 name extension Hf Hex Hg Hsame.
    rewrite (step_detected _ _ _ _ _ _ Hf Hex Hg).
    assert (snd (splitext name) = "." +:+ extension) as ->.
    { apply (append_inj (fst (splitext name))).
      by rewrite splitext_app, Hsame. }
    by rewrite String.eqb_refl.
  - intros FS O base_dir m e l name fs' Hm Hf Hsame Hex Hren.
    unfold FixIndexAndAddTime.step. rewrite Hm, Hf, Hsame, Hex.
    rewrite (do_rename_some _ _ _ _ Hren).
    rewrite (insert_id e "file" (AStr name) Hf).
    eexists. split; [reflexivity|]. by split.
  - intros FS O files_base_dir data data1 c0 c1 w0 w1 Hlaw E Hok Hfix c.
    exact (second_pass_corrects_nothing Hlaw _ _ _ _ _ _ _ E Hok Hfix c).
Qed.

Lemma C1_target_equals_current_witness :
  FixExtension.step "cave" (Samples.image "photo.png")
    (FixExtension.mk_counters 0 0) (boot Samples.disk_ok)
  = (Samples.image "photo.png", FixExtension.mk_counters 0 0,
     print (MsgCorrect "photo.png") (boot Samples.disk_ok),
     FixExtension.AlreadyCorrect "photo.png")
  /\ (exists l',
        FixIndexAndAddTime.step "cave" Samples.meta42
          (Samples.image "42-1_7-99_1690000000000.png") Samples.locals42c
        = (Samples.image "42-1_7-99_1690000000000.png", l',
           FixIndexAndAddTime.Renamed "42-1_7-99_1690000000000.png"
             "42-1_7-99_1690000000000.png")
        /\ trace (FixIndexAndAddTime.w l')
           = (trace (FixIndexAndAddTime.w Samples.locals42c)
              ++ [CallRename "cave/42-1_7-99_1690000000000.png"
                    "cave/42-1_7-99_1690000000000.png" true])%list
        /\ FixIndexAndAddTime.total_renamed (FixIndexAndAddTime.counts l')
           = FixIndexAndAddTime.total_renamed
               (FixIndexAndAddTime.counts Samples.locals42c) + 1)
  /\ (exists c2 w2 r,
        FixExtension.for_caves "cave" (fst (fst (fst Samples.pass1)))
          (FixExtension.mk_counters 0 0) (snd (fst Samples.pass1))
        = (fst (fst (fst Samples.pass1)), c2, w2, r)
        /\ fs w2 = fs (snd (fst Samples.pass1))
        /\ trace w2 = trace (snd (fst Samples.pass1))
        /\ FixExtension.total_corrected c2
           = FixExtension.total_corrected (FixExtension.mk_counters 0 0)).
Proof.
  split; [|split].
  - apply (proj1 C1_target_equals_current disk posix "cave"
             (Samples.image "photo.png") (FixExtension.mk_counters 0 0)
             (boot Samples.disk_ok) "photo.png" "png");
      vm_compute; reflexivity.
  - apply (proj1 (proj2 C1_target_equals_current) disk posix "cave"
             Samples.meta42 (Samples.image "42-1_7-99_1690000000000.png")
             Samples.locals42c "42-1_7-99_1690000000000.png" Samples.disk42c);
      vm_compute; reflexivity.
  - apply (proj2 (proj2 C1_target_equals_current) disk posix "cave"
             [Samples.rec_png] (fst (fst (fst Samples.pass1)))
             (FixExtension.mk_counters 0 0) (snd (fst (fst Samples.pass1)))
             (boot Samples.disk_png) (snd (fst Samples.pass1))).
    + exact posix_lawful.
    + vm_compute. reflexivity.
    + vm_compute. repeat constructor.
    + change (Forall (Spec.fixable (FS := disk)) [Samples.image "photo.jpg"]).
      apply Forall_cons_2; [exact fixable_photo|apply Forall_nil_2].
Defined.

End IdempotenceClaims.

(** * Further properties of the scripts *)

(** ** What a run leaves alone *)

Section Frames.
Import Py Doc Os OsPath.
Context {FS : Type} `{OS FS}.

Lemma reindex_for_elements_length (base_dir : string)
    (m : FixIndexAndAddTime.meta) (els : list dict) :
  forall (l : FixIndexAndAddTime.locals) els' l' r,
    FixIndexAndAddTime.for_elements base_dir m els l = (els', l', r) ->
    length els' = length els.
Proof.
  induction els as [|x els IH]; intros l els' l' r E; simpl in E.
  - by inversion E.
  - destruct (FixIndexAndAddTime.step base_dir m x l) as [[x' l1] o] eqn:Es.
    destruct (FixIndexAndAddTime.for_elements base_dir m els l1)
      as [[rest' l2] r2] eqn:Er.
    pose proof (IH _ _ _ _ Er) as Hl.
    destruct o; inversion E; subst; simpl; congruence.
Qed.

Lemma process_cave_shape (base_dir : string) (cave cave' : Doc.cave)
    (c c' : FixIndexAndAddTime.counters) (w0 w' : world FS) :
  FixIndexAndAddTime.process_cave base_dir cave c w0 = (cave', c', w') ->
  fields cave' = fields cave
  /\ length (get_elements cave') = length (get_elements cave)
  /\ (elements cave' = None <-> elements cave = None).
Proof.
  intros E.
  destruct (FixIndexAndAddTime.read_meta (fields cave)) as [m|ex] eqn:Em.
  - revert E. unfold FixIndexAndAddTime.process_cave. rewrite Em.
    destruct (FixIndexAndAddTime.for_elements _ _ _ _) as [[els' l] r] eqn:El.
    apply reindex_for_elements_length in El.
    intros E.
    assert (cave' = mk_cave (fields cave)
              (match elements cave with Some _ => Some els' | None => None end))
      as ->.
    { destruct r as [[]|]; by inversion E. }
    unfold get_elements in *. simpl.
    destruct (elements cave); simpl in *; repeat split; try done.
  - destruct (process_cave_unreadable base_dir cave c w0 ex Em) as [ms E'].
    rewrite E' in E. inversion E; subst. done.
Qed.

Lemma ext_step_names (files_base_dir : string) (e e' : dict)
    (c c' : FixExtension.counters) (w0 w' : world FS) (o : FixExtension.outcome) :
  FixExtension.step files_base_dir e c w0 = (e', c', w', o) ->
  e' = e
  \/ exists name extension,
       e !! "file" = Some (AStr name)
       /\ e' = <["file" := AStr (fst (splitext name) +:+ "." +:+ extension)]> e.
Proof.
  unfold FixExtension.step. intros E.
  repeat case_match; simplify_eq; auto.
  right. do 2 eexists. split; [done|].
  match goal with Hs : splitext _ = _ |- _ => by rewrite Hs end.
Qed.

Lemma ext_for_elements_names (files_base_dir : string) (els : list dict) :
  forall (c : FixExtension.counters) (w0 : world FS) els' c' w' r,
    FixExtension.for_elements files_base_dir els c w0 = (els', c', w', r) ->
    length els' = length els
    /\ forall (i : nat) (e e' : dict),
         els !! i = Some e -> els' !! i = Some e' ->
         e' = e
         \/ exists name extension,
              e !! "file" = Some (AStr name)
              /\ e' = <["file" := AStr (fst (splitext name) +:+ "."
                                          +:+ extension)]> e.
Proof.
  induction els as [|x els IH]; intros c w0 els' c' w' r E; simpl in E.
  - inversion E; subst. split; [done|]. by intros [|i] e e' Hi.
  - destruct (FixExtension.step files_base_dir x c w0) as [[[x' c1] w1] o] eqn:Es.
    pose proof (ext_step_names _ _ _ _ _ _ _ _ Es) as Hx.
    destruct (FixExtension.for_elements files_base_dir els c1 w1)
      as [[[rest' c2] w2] r2] eqn:Er.
    destruct (IH _ _ _ _ _ _ Er) as [Hl Hrest].
    assert (Hcase : els' = x' :: els \/ els' = x' :: rest').
    { destruct o; inversion E; subst; auto. }
    destruct Hcase as [-> | ->].
    + split; [done|]. intros [|i] e e' Hi Hi'; simpl in *.
      * inversion Hi; inversion Hi'; subst. done.
      * left. congruence.
    + split; [simpl; congruence|]. intros [|i] e e' Hi Hi'; simpl in *.
      * inversion Hi; inversion Hi'; subst. done.
      * eauto.
Qed.

Lemma ext_for_caves_shape (files_base_dir : string) (data : list cave) :
  forall (c : FixExtension.counters) (w0 : world FS) data' c' w' r,
    FixExtension.for_caves files_base_dir data c w0 = (data', c', w', r) ->
    length data' = length data
    /\ forall (j : nat) (cave cave' : Doc.cave),
         data !! j = Some cave -> data' !! j = Some cave' ->
         fields cave' = fields cave
         /\ length (get_elements cave') = length (get_elements cave)
         /\ forall (i : nat) (e e' : dict),
              get_elements cave !! i = Some e ->
              get_elements cave' !! i = Some e' ->
              e' = e
              \/ exists name extension,
                   e !! "file" = Some (AStr name)
                   /\ e' = <["file" := AStr (fst (splitext name) +:+ "."
                                               +:+ extension)]> e.
Proof.
  induction data as [|x data IH]; intros c w0 data' c' w' r E;
    cbn [FixExtension.for_caves] in E.
  - inversion E; subst. split; [done|]. by intros [|j] cave cave' Hj.
  - assert (Hsame : forall cave : Doc.cave,
      fields cave = fields cave
      /\ length (get_elements cave) = length (get_elements cave)
      /\ forall (i : nat) (e e' : dict),
           get_elements cave !! i = Some e -> get_elements cave !! i = Some e' ->
           e' = e
           \/ exists name extension,
                e !! "file" = Some (AStr name)
                /\ e' = <["file" := AStr (fst (splitext name) +:+ "."
                                            +:+ extension)]> e).
    { intros cave. repeat split. intros i e e' Hi Hi'. left. congruence. }
    destruct (get_elements x) as [|e0 els0] eqn:Eg.
    + destruct (FixExtension.for_caves files_base_dir data c w0)
        as [[[rest' c2] w2] r2] eqn:Er.
      destruct (IH _ _ _ _ _ _ Er) as [Hl Hrest].
      inversion E; subst. split; [simpl; congruence|].
      intros [|j] cave cave' Hj Hj'; simpl in *.
      * inversion Hj; inversion Hj'; subst. apply Hsame.
      * eauto.
    + destruct (FixExtension.for_elements files_base_dir (e0 :: els0) c w0)
        as [[[els' c1] w1] r1] eqn:Ee.
      destruct (ext_for_elements_names _ _ _ _ _ _ _ _ Ee) as [Hle Hels].
      assert (Hx : forall cave' : Doc.cave,
        cave' = mk_cave (fields x) (Some els') ->
        fields cave' = fields x
        /\ length (get_elements cave') = length (get_elements x)
        /\ forall (i : nat) (e e' : dict),
             get_elements x !! i = Some e -> get_elements cave' !! i = Some e' ->
             e' = e
             \/ exists name extension,
                  e !! "file" = Some (AStr name)
                  /\ e' = <["file" := AStr (fst (splitext name) +:+ "."
                                              +:+ extension)]> e).
      { intros cave' ->. rewrite Eg. unfold get_elements at 1 2. simpl.
        repeat split; [done|]. apply Hels. }
      destruct r1 as [ex|].
      * inversion E; subst. split; [done|].
        intros [|j] cave cave' Hj Hj'; simpl in *.
        -- inversion Hj; inversion Hj'; subst. by apply Hx.
        -- assert (cave' = cave) as -> by congruence. apply Hsame.
      * destruct (FixExtension.for_caves files_base_dir data c1 w1)
          as [[[rest' c2] w2] r2] eqn:Er.
        destruct (IH _ _ _ _ _ _ Er) as [Hl Hrest].
        inversion E; subst. split; [simpl; congruence|].
        intros [|j] cave cave' Hj Hj'; simpl in *.
        -- inversion Hj; inversion Hj'; subst. by apply Hx.
        -- eauto.
Qed.

End Frames.

Section FrameClaims.
Import Py Doc Os OsPath Posix.

Lemma only_file_changed (e e' : dict) :
  (e' = e \/ exists v, is_Some (e !! "file") /\ e' = <["file" := v]> e) ->
  (forall k : string, k <> "file" -> e' !! k = e !! k)
  /\ (is_Some (e' !! "file") <-> is_Some (e !! "file")).
Proof.
  intros [-> | (v & Hf & ->)]; [done|]. split.
  - intros k Hk. by rewrite lookup_insert_ne.
  - rewrite lookup_insert_eq. split; [done|]. intros _. by eexists.
Qed.

(** X1. A full-reindex run keeps the shape of the document: the number
    of records, the scalar fields of every record, the number of its
    attachments and, in every attachment, every key but [file]; and an
    attachment has a [file] key after the run exactly when it had one. *)
Theorem X1_reindex_frame :
  forall (FS : Type) (O : OS FS) (base_dir : string) (data data' : list cave)
         (c c' : FixIndexAndAddTime.counters) (w0 w' : world FS),
    FixIndexAndAddTime.for_caves base_dir data c w0 = (data', c', w') ->
    length data' = length data
    /\ forall (j : nat) (cave cave' : Doc.cave),
         data !! j = Some cave -> data' !! j = Some cave' ->
         fields cave' = fields cave
         /\ length (get_elements cave') = length (get_elements cave)
         /\ forall (i : nat) (e e' : dict),
              get_elements cave !! i = Some e ->
              get_elements cave' !! i = Some e' ->
              (forall k : string, k <> "file" -> e' !! k = e !! k)
              /\ (is_Some (e' !! "file") <-> is_Some (e !! "file")).
Proof.
  intros FS O base_dir data data' c c' w0 w' E.
  split; [by destruct (for_caves_dumps _ _ _ _ _ _ _ E)|].
  intros j cave cave' Hj Hj'.
  destruct (for_caves_lookup _ _ _ _ _ _ _ E j cave cave' Hj Hj')
    as (cj & wj & cj' & wj' & Ej).
  destruct (process_cave_shape _ _ _ _ _ _ _ Ej) as (Hf & Hl & _).
  split; [done|]. split; [done|].
  intros i e e' Hi Hi'. apply only_file_changed.
  destruct (process_cave_names _ _ _ _ _ _ _ Ej i e e' Hi Hi')
    as [-> | (m & old & _ & _ & Hold & ->)]; [by left|right].
  eexists. split; [|reflexivity]. by rewrite Hold.
Qed.

Lemma X1_reindex_frame_witness :
  length (fst (fst Samples.run12)) = length [Samples.rec1; Samples.rec2]
  /\ Samples.renamed_b !! "type" = Samples.image "b.png" !! "type"
  /\ (is_Some (Samples.renamed_b !! "file")
      <-> is_Some (Samples.image "b.png" !! "file")).
Proof.
  destruct (X1_reindex_frame disk posix "cave" [Samples.rec1; Samples.rec2]
              (fst (fst Samples.run12)) (FixIndexAndAddTime.mk_counters 0 0 0)
              (snd (fst Samples.run12)) (boot Samples.disk12)
              (snd Samples.run12) ltac:(vm_compute; reflexivity))
    as [Hlen Hrec].
  split; [exact Hlen|].
  destruct (Hrec 1%nat Samples.rec2
              (mk_cave (fields Samples.rec2)
                 (Some [Samples.text "hello"; Samples.renamed_b]))
              eq_refl ltac:(vm_compute; reflexivity)) as (_ & _ & Hel).
  destruct (Hel 1%nat (Samples.image "b.png") Samples.renamed_b
              eq_refl eq_refl) as [Hk Hfile].
  split; [apply Hk; discriminate|exact Hfile].
Defined.

(** X2. An extension-fix run keeps the shape of the document as well,
    also when it ends on an uncaught exception: the number of records,
    their scalar fields, the number of their attachments and every key of
    an attachment but [file]; a changed [file] is the old root with a
    dot and an extension after it. *)
Theorem X2_extension_frame :
  forall (FS : Type) (O : OS FS) (files_base_dir : string)
         (data data' : list cave) (c c' : FixExtension.counters)
         (w0 w' : world FS) (r : option exn),
    FixExtension.for_caves files_base_dir data c w0 = (data', c', w', r) ->
    length data' = length data
    /\ forall (j : nat) (cave cave' : Doc.cave),
         data !! j = Some cave -> data' !! j = Some cave' ->
         fields cave' = fields cave
         /\ length (get_elements cave') = length (get_elements cave)
         /\ forall (i : nat) (e e' : dict),
              get_elements cave !! i = Some e ->
              get_elements cave' !! i = Some e' ->
              (forall k : string, k <> "file" -> e' !! k = e !! k)
              /\ (e' !! "file" = e !! "file"
                  \/ exists name extension,
                       e !! "file" = Some (AStr name)
                       /\ e' !! "file"
                          = Some (AStr (fst (splitext name) +:+ "."
                                          +:+ extension))).
Proof.
  intros FS O files_base_dir data data' c c' w0 w' r E.
  destruct (ext_for_caves_shape _ _ _ _ _ _ _ _ E) as [Hl Hall].
  split; [done|]. intros j cave cave' Hj Hj'.
  destruct (Hall j cave cave' Hj Hj') as (Hf & Hle & Hels).
  split; [done|]. split; [done|].
  intros i e e' Hi Hi'.
  destruct (Hels i e e' Hi Hi') as [-> | (name & ext & Hname & ->)]; [auto|].
  split.
  - intros k Hk. by rewrite lookup_insert_ne.
  - right. exists name, ext. by rewrite lookup_insert_eq.
Qed.

Lemma X2_extension_frame_witness :
  length (fst (fst (fst Samples.pass1))) = length [Samples.rec_png]
  /\ (<["file" := AStr "photo.png"]> (Samples.image "photo.jpg")) !! "type"
     = Samples.image "photo.jpg" !! "type".
Proof.
  destruct (X2_extension_frame disk posix "cave" [Samples.rec_png]
              (fst (fst (fst Samples.pass1))) (FixExtension.mk_counters 0 0)
              (snd (fst (fst Samples.pass1))) (boot Samples.disk_png)
              (snd (fst Samples.pass1)) (snd Samples.pass1)
              ltac:(vm_compute; reflexivity))
    as [Hlen Hrec].
  split; [exact Hlen|].
  destruct (Hrec 0%nat Samples.rec_png Samples.rec_png_fixed
              eq_refl ltac:(vm_compute; reflexivity)) as (_ & _ & Hel).
  destruct (Hel 0%nat (Samples.image "photo.jpg")
              (<["file" := AStr "photo.png"]> (Samples.image "photo.jpg"))
              eq_refl eq_refl) as [Hk _].
  apply Hk. discriminate.
Defined.

End FrameClaims.

(** ** The counters and what was done *)

Section Accounting.
Import Py Doc Os OsPath.
Context {FS : Type} `{OS FS}.

Lemma count_snoc {A : Type} (f : A -> bool) (l : list A) (x : A) :
  Spec.count f (l ++ [x]) = Spec.count f l + (if f x then 1 else 0).
Proof.
  unfold Spec.count. rewrite List.filter_app, length_app. simpl.
  destruct (f x); simpl; lia.
Qed.

Lemma count_nonneg {A : Type} (f : A -> bool) (l : list A) : 0 <= Spec.count f l.
Proof. unfold Spec.count. lia. Qed.

Ltac open_rename :=
  repeat match goal with
  | E : do_rename _ _ _ = (_, true) |- _ =>
      apply do_rename_true in E as (? & ? & ->)
  | E : do_rename _ _ _ = (_, false) |- _ =>
      apply do_rename_false in E as (? & ->)
  end.

Ltac tally := simpl; rewrite ?count_snoc; simpl; lia.

Lemma reindex_balance_refl (c : FixIndexAndAddTime.counters) (w0 : world FS) :
  Spec.reindex_balance c c w0 w0.
Proof. split; lia. Qed.

Lemma reindex_balance_trans (c1 c2 c3 : FixIndexAndAddTime.counters)
    (w1 w2 w3 : world FS) :
  Spec.reindex_balance c1 c2 w1 w2 -> Spec.reindex_balance c2 c3 w2 w3 ->
  Spec.reindex_balance c1 c3 w1 w3.
Proof. intros [] []. split; lia. Qed.

Lemma reindex_step_balance (base_dir : string) (m : FixIndexAndAddTime.meta)
    (e e' : dict) (l l' : FixIndexAndAddTime.locals)
    (o : FixIndexAndAddTime.outcome) :
  FixIndexAndAddTime.step base_dir m e l = (e', l', o) ->
  Spec.reindex_balance (FixIndexAndAddTime.counts l) (FixIndexAndAddTime.counts l')
    (FixIndexAndAddTime.w l) (FixIndexAndAddTime.w l')
  /\ FixIndexAndAddTime.updated_json_entries (FixIndexAndAddTime.counts l')
     = FixIndexAndAddTime.updated_json_entries (FixIndexAndAddTime.counts l)
  /\ (FixIndexAndAddTime.entry_updated l' = true ->
      FixIndexAndAddTime.entry_updated l = true
      \/ FixIndexAndAddTime.total_renamed (FixIndexAndAddTime.counts l)
         < FixIndexAndAddTime.total_renamed (FixIndexAndAddTime.counts l'))
  /\ Spec.count Spec.rename_failed (trace (FixIndexAndAddTime.w l'))
     - Spec.count Spec.rename_failed (trace (FixIndexAndAddTime.w l))
     = (match o with FixIndexAndAddTime.Raised OSError => 1 | _ => 0 end).
Proof.
  unfold FixIndexAndAddTime.step. intros E.
  repeat case_match; simplify_eq; open_rename;
    (split; [split; tally|]); (split; [done|]); (split; [|tally]);
    simpl; auto; intros _; right; lia.
Qed.

Lemma reindex_for_elements_balance (base_dir : string)
    (m : FixIndexAndAddTime.meta) (els : list dict) :
  forall (l : FixIndexAndAddTime.locals) els' l' r,
    FixIndexAndAddTime.for_elements base_dir m els l = (els', l', r) ->
    Spec.reindex_balance (FixIndexAndAddTime.counts l)
      (FixIndexAndAddTime.counts l') (FixIndexAndAddTime.w l)
      (FixIndexAndAddTime.w l')
    /\ FixIndexAndAddTime.updated_json_entries (FixIndexAndAddTime.counts l')
       = FixIndexAndAddTime.updated_json_entries (FixIndexAndAddTime.counts l)
    /\ (FixIndexAndAddTime.entry_updated l' = true ->
        FixIndexAndAddTime.entry_updated l = true
        \/ FixIndexAndAddTime.total_renamed (FixIndexAndAddTime.counts l)
           < FixIndexAndAddTime.total_renamed (FixIndexAndAddTime.counts l'))
    /\ 0 <= Spec.count Spec.rename_failed (trace (FixIndexAndAddTime.w l'))
            - Spec.count Spec.rename_failed (trace (FixIndexAndAddTime.w l))
         <= 1.
Proof.
  induction els as [|x els IH]; intros l els' l' r E; simpl in E.
  - inversion E; subst. split; [apply reindex_balance_refl|].
    split; [done|]. split; [auto|lia].
  - destruct (FixIndexAndAddTime.step base_dir m x l) as [[x' l1] o] eqn:Es.
    destruct (reindex_step_balance _ _ _ _ _ _ _ Es) as (Hb & Hu & He & Hf).
    destruct (FixIndexAndAddTime.for_elements base_dir m els l1)
      as [[rest' l2] r2] eqn:Er.
    destruct (IH _ _ _ _ Er) as (Hb' & Hu' & He' & Hf').
    assert (Hcase : (exists ex, o = FixIndexAndAddTime.Raised ex /\ l' = l1)
                    \/ ((forall ex, o <> FixIndexAndAddTime.Raised ex)
                        /\ l' = l2)).
    { destruct o; inversion E; subst; eauto. }
    destruct Hcase as [(ex & -> & ->) | (Hno & ->)].
    + split; [done|]. split; [done|]. split; [done|].
      destruct ex; lia.
    + split; [by eapply reindex_balance_trans|].
      split; [congruence|]. split.
      * intros Ht. destruct (He' Ht) as [Ht1|Hlt].
        -- destruct (He Ht1) as [?|?]; [by left|right].
           destruct Hb'. lia.
        -- right. destruct Hb. lia.
      * assert (Spec.count Spec.rename_failed (trace (FixIndexAndAddTime.w l1))
                - Spec.count Spec.rename_failed (trace (FixIndexAndAddTime.w l))
                = 0).
        { rewrite Hf. destruct o as [| | |ex]; try done.
          by destruct (Hno ex). }
        lia.
Qed.

Lemma process_cave_balance (base_dir : string) (cave cave' : Doc.cave)
    (c c' : FixIndexAndAddTime.counters) (w0 w' : world FS) :
  FixIndexAndAddTime.process_cave base_dir cave c w0 = (cave', c', w') ->
  Spec.reindex_balance c c' w0 w'
  /\ 0 <= FixIndexAndAddTime.updated_json_entries c'
          - FixIndexAndAddTime.updated_json_entries c <= 1
  /\ FixIndexAndAddTime.updated_json_entries c'
     - FixIndexAndAddTime.updated_json_entries c
     <= FixIndexAndAddTime.total_renamed c' - FixIndexAndAddTime.total_renamed c
  /\ 0 <= Spec.count Spec.rename_failed (trace w')
          - Spec.count Spec.rename_failed (trace w0) <= 1.
Proof.
  intros E.
  destruct (FixIndexAndAddTime.read_meta (fields cave)) as [m|ex] eqn:Em.
  - revert E. unfold FixIndexAndAddTime.process_cave. rewrite Em.
    destruct (FixIndexAndAddTime.for_elements _ _ _ _) as [[els' l] r] eqn:El.
    destruct (reindex_for_elements_balance _ _ _ _ _ _ _ El)
      as (Hb & Hu & He & Hf).
    simpl in Hb, Hu, He, Hf. destruct Hb as [B1 B2 B3 B4].
    destruct r as [ex|].
    + intros E.
      assert (c' = FixIndexAndAddTime.counts l
              /\ trace w' = trace (FixIndexAndAddTime.w l)
              /\ exists ms, console w'
                            = (console (FixIndexAndAddTime.w l) ++ [ms])%list
                            /\ Spec.is_renamed_msg ms = false
                            /\ Spec.is_missing_msg ms = false)
        as (-> & Ht & ms & Hc & Hm1 & Hm2).
      { destruct ex; inversion E; subst; (split; [done|]); (split; [done|]);
          eexists; (split; [reflexivity|]); done. }
      split; [split|]; rewrite ?Ht, ?Hc, ?count_snoc, ?Hm1, ?Hm2; lia.
    + intros E. inversion E; subst. clear E.
      split; [split; simpl; lia|].
      simpl. destruct (FixIndexAndAddTime.entry_updated l) eqn:Hupd.
      * destruct (He eq_refl) as [?|?]; [discriminate|]. lia.
      * lia.
  - destruct (process_cave_unreadable base_dir cave c w0 ex Em) as [ms E'].
    revert E. unfold FixIndexAndAddTime.process_cave. rewrite Em.
    destruct ex; intros E; inversion E; subst;
      (split; [split; tally|]); simpl; lia.
Qed.

Lemma for_caves_balance (base_dir : string) (data : list cave) :
  forall (c : FixIndexAndAddTime.counters) (w0 : world FS) data' c' w',
    FixIndexAndAddTime.for_caves base_dir data c w0 = (data', c', w') ->
    Spec.reindex_balance c c' w0 w'
    /\ 0 <= FixIndexAndAddTime.updated_json_entries c'
            - FixIndexAndAddTime.updated_json_entries c
         <= Z.of_nat (length data)
    /\ FixIndexAndAddTime.updated_json_entries c'
       - FixIndexAndAddTime.updated_json_entries c
       <= FixIndexAndAddTime.total_renamed c' - FixIndexAndAddTime.total_renamed c
    /\ 0 <= Spec.count Spec.rename_failed (trace w')
            - Spec.count Spec.rename_failed (trace w0)
         <= Z.of_nat (length data).
Proof.
  induction data as [|x data IH]; intros c w0 data' c' w' E; simpl in E.
  - inversion E; subst. split; [apply reindex_balance_refl|]. simpl. lia.
  - destruct (FixIndexAndAddTime.process_cave base_dir x c w0)
      as [[x' c1] w1] eqn:Ex.
    destruct (process_cave_balance _ _ _ _ _ _ _ Ex) as (Hb & Hu & Hr & Hf).
    destruct (FixIndexAndAddTime.for_caves base_dir data c1 w1)
      as [[rest' c2] w2] eqn:Er.
    destruct (IH _ _ _ _ _ Er) as (Hb' & Hu' & Hr' & Hf').
    inversion E; subst.
    split; [by eapply reindex_balance_trans|].
    simpl length. lia.
Qed.

End Accounting.

Section AccountingClaims.
Import Py Doc Os OsPath Posix.

(** X3. The counts [rename_files_and_update_json] reports are what it
    did: [total_renamed] is the number of renames that went through and of
    the lines that report one, [total_skipped] the number of lines that
    report a missing file; the number of updated records lies between 0
    and both the number of renames and the number of records; and at most
    one rename fails per record. *)
Theorem X3_reindex_report_counts :
  forall (FS : Type) (O : OS FS) (data data' : list cave) (base_dir : string)
         (c : FixIndexAndAddTime.counters) (w0 w' : world FS),
    FixIndexAndAddTime.rename_files_and_update_json data base_dir w0
    = (Some data', c, w') ->
    FixIndexAndAddTime.total_renamed c
    = Spec.count Spec.rename_succeeded (trace w')
      - Spec.count Spec.rename_succeeded (trace w0)
    /\ FixIndexAndAddTime.total_renamed c
       = Spec.count Spec.is_renamed_msg (console w')
         - Spec.count Spec.is_renamed_msg (console w0)
    /\ FixIndexAndAddTime.total_skipped c
       = Spec.count Spec.is_missing_msg (console w')
         - Spec.count Spec.is_missing_msg (console w0)
    /\ 0 <= FixIndexAndAddTime.updated_json_entries c
         <= FixIndexAndAddTime.total_renamed c
    /\ FixIndexAndAddTime.updated_json_entries c <= Z.of_nat (length data)
    /\ 0 <= Spec.count Spec.rename_failed (trace w')
            - Spec.count Spec.rename_failed (trace w0)
         <= Z.of_nat (length data).
Proof.
  intros FS O data data' base_dir c w0 w'.
  unfold FixIndexAndAddTime.rename_files_and_update_json.
  destruct (negb (path_isdir _ _)); [discriminate|].
  destruct (FixIndexAndAddTime.for_caves _ _ _ _) as [[d1 c1] w1] eqn:E.
  destruct (for_caves_balance _ _ _ _ _ _ _ E) as ([B1 B2 B3 B4] & Hu & Hr & Hf).
  intros E'. inversion E'; subst. simpl in *.
  rewrite !count_snoc. simpl. lia.
Qed.

Lemma X3_reindex_report_counts_witness :
  fst (fst Samples.run_mixed) <> None
  /\ snd (fst Samples.run_mixed) = FixIndexAndAddTime.mk_counters 1 0 1
  /\ FixIndexAndAddTime.total_renamed (snd (fst Samples.run_mixed))
     = Spec.count Spec.rename_succeeded (trace (snd Samples.run_mixed))
       - Spec.count Spec.rename_succeeded (trace (boot Samples.disk_mixed))
  /\ Spec.count Spec.rename_failed (trace (snd Samples.run_mixed)) = 1.
Proof.
  split; [vm_compute; discriminate|].
  split; [vm_compute; reflexivity|].
  split; [|vm_compute; reflexivity].
  apply (X3_reindex_report_counts disk posix
           [Samples.rec5; Samples.rec_noid; Samples.rec9]
           (default [] (fst (fst Samples.run_mixed))) "cave"
           (snd (fst Samples.run_mixed)) (boot Samples.disk_mixed)
           (snd Samples.run_mixed)).
  vm_compute. reflexivity.
Defined.

End AccountingClaims.

Section AccountingExt.
Import Py Doc Os OsPath FixExtension.
Context {FS : Type} `{OS FS}.

Ltac open_rename :=
  repeat match goal with
  | E : do_rename _ _ _ = (_, true) |- _ =>
      apply do_rename_true in E as (? & ? & ->)
  | E : do_rename _ _ _ = (_, false) |- _ =>
      apply do_rename_false in E as (? & ->)
  end.

Ltac tally := simpl; rewrite ?count_snoc; simpl; lia.

Lemma ext_balance_refl (c : counters) (w0 : world FS) : Spec.ext_balance c c w0 w0.
Proof. split; lia. Qed.

Lemma ext_balance_trans (c1 c2 c3 : counters) (w1 w2 w3 : world FS) :
  Spec.ext_balance c1 c2 w1 w2 -> Spec.ext_balance c2 c3 w2 w3 ->
  Spec.ext_balance c1 c3 w1 w3.
Proof. intros [] []. split; lia. Qed.

Lemma ext_step_balance (files_base_dir : string) (e e' : dict) (c c' : counters)
    (w0 w' : world FS) (o : outcome) :
  step files_base_dir e c w0 = (e', c', w', o) -> Spec.ext_balance c c' w0 w'.
Proof.
  unfold step. intros E.
  repeat case_match; simplify_eq; open_rename; split; tally.
Qed.

Lemma ext_for_elements_balance (files_base_dir : string) (els : list dict) :
  forall (c : counters) (w0 : world FS) els' c' w' r,
    for_elements files_base_dir els c w0 = (els', c', w', r) ->
    Spec.ext_balance c c' w0 w'.
Proof.
  induction els as [|x els IH]; intros c w0 els' c' w' r E; simpl in E.
  - inversion E; subst. apply ext_balance_refl.
  - destruct (step files_base_dir x c w0) as [[[x' c1] w1] o] eqn:Es.
    pose proof (ext_step_balance _ _ _ _ _ _ _ _ Es) as Hb.
    destruct (for_elements files_base_dir els c1 w1) as [[[rest' c2] w2] r2] eqn:Er.
    pose proof (IH _ _ _ _ _ _ Er) as Hb'.
    destruct o; inversion E; subst; try done;
      by eapply ext_balance_trans.
Qed.

Lemma ext_for_caves_balance (files_base_dir : string) (data : list cave) :
  forall (c : counters) (w0 : world FS) data' c' w' r,
    for_caves files_base_dir data c w0 = (data', c', w', r) ->
    Spec.ext_balance c c' w0 w'.
Proof.
  induction data as [|x data IH]; intros c w0 data' c' w' r E;
    cbn [for_caves] in E.
  - inversion E; subst. apply ext_balance_refl.
  - destruct (get_elements x) as [|e0 els0] eqn:Eg.
    + destruct (for_caves files_base_dir data c w0)
        as [[[rest' c2] w2] r2] eqn:Er.
      inversion E; subst. eauto.
    + destruct (for_elements files_base_dir (e0 :: els0) c w0)
        as [[[els' c1] w1] r1] eqn:Ee.
      pose proof (ext_for_elements_balance _ _ _ _ _ _ _ _ Ee) as Hb.
      destruct r1 as [ex|]; [inversion E; subst; done|].
      destruct (for_caves files_base_dir data c1 w1)
        as [[[rest' c2] w2] r2] eqn:Er.
      pose proof (IH _ _ _ _ _ _ Er) as Hb'.
      inversion E; subst. by eapply ext_balance_trans.
Qed.

End AccountingExt.

Section AccountingExtClaims.
Import Py Doc Os OsPath Posix.

(** X4. The counts [correct_files_and_update_json] reports at its end
    are what it did: [total_corrected] is the number of renames that went
    through and of the lines that report one; [total_skipped] is the
    number of lines that report a skip; every rename attempted either went
    through and was counted as corrected or failed and was counted among
    the skipped. *)
Theorem X4_extension_report_counts :
  forall (FS : Type) (O : OS FS) (json_file_path files_base_dir : string)
         (c : FixExtension.counters) (d : option (list cave))
         (w0 w' : world FS),
    FixExtension.correct_files_and_update_json json_file_path files_base_dir w0
    = (FixExtension.Done c, d, w') ->
    FixExtension.total_corrected c
    = Spec.count Spec.rename_succeeded (trace w')
      - Spec.count Spec.rename_succeeded (trace w0)
    /\ FixExtension.total_corrected c
       = Spec.count Spec.is_renamed_msg (console w')
         - Spec.count Spec.is_renamed_msg (console w0)
    /\ FixExtension.total_skipped c
       = Spec.count Spec.is_skip_msg (console w')
         - Spec.count Spec.is_skip_msg (console w0)
    /\ 0 <= Spec.count Spec.rename_failed (trace w')
            - Spec.count Spec.rename_failed (trace w0)
         <= FixExtension.total_skipped c
    /\ Spec.count Spec.is_rename (trace w') - Spec.count Spec.is_rename (trace w0)
       = FixExtension.total_corrected c
         + (Spec.count Spec.rename_failed (trace w')
            - Spec.count Spec.rename_failed (trace w0)).
Proof.
  intros FS O json_file_path files_base_dir c d w0 w'.
  unfold FixExtension.correct_files_and_update_json.
  destruct (negb (path_exists _ _)); [discriminate|].
  destruct (negb (path_isdir _ _)); [discriminate|].
  destruct (json_load _ _) as [| |[cave_data|m]]; try discriminate.
  - destruct (FixExtension.for_caves _ _ _ _) as [[[data' c1] w1] r] eqn:E.
    destruct (ext_for_caves_balance _ _ _ _ _ _ _ _ E)
      as [B1 B2 B3 B4 B5 B6].
    destruct r; [discriminate|].
    destruct (0 <? FixExtension.total_corrected c1).
    + destruct (do_dump _ _ _) as [w2 ok] eqn:Ed.
      pose proof (do_dump_trace _ _ _ _ _ Ed) as Ht.
      assert (Hc : console w2 = console w1).
      { revert Ed. unfold do_dump. destruct (json_dump _ _ _);
          intros Ed; by inversion Ed. }
      destruct ok; intros E'; inversion E'; subst; simpl in *;
        rewrite ?Ht, ?Hc, !count_snoc; simpl; lia.
    + intros E'. inversion E'; subst. simpl in *.
      rewrite !count_snoc. simpl. lia.
  - destruct (bool_decide _); [|discriminate].
    intros E'. inversion E'; subst. simpl.
    rewrite !count_snoc. simpl. lia.
Qed.

Lemma X4_extension_report_counts_witness :
  fst (fst Samples.run_ext) = FixExtension.Done (FixExtension.mk_counters 1 0)
  /\ FixExtension.total_corrected (FixExtension.mk_counters 1 0)
     = Spec.count Spec.rename_succeeded (trace (snd Samples.run_ext))
       - Spec.count Spec.rename_succeeded (trace (boot Samples.disk_ext)).
Proof.
  split; [vm_compute; reflexivity|].
  apply (X4_extension_report_counts disk posix "cave_export.json" "cave"
           (FixExtension.mk_counters 1 0) (snd (fst Samples.run_ext))
           (boot Samples.disk_ext) (snd Samples.run_ext)).
  vm_compute. reflexivity.
Defined.

End AccountingExtClaims.

(** ** After a rename *)

Section SplitextFacts.
Import Py OsPath.

(** [rfind] returns -1 or the index of an occurrence. *)
Lemma rfind_from_spec (c : ascii) (s : string) :
  forall (i last k : Z),
    rfind_from c s i last = k ->
    k = last
    \/ (i <= k /\ exists t, str_drop (Z.to_nat (k - i)) s = String c t).
Proof.
  induction s as [|a s IH]; intros i last k E; simpl in E.
  - by left.
  - destruct (IH _ _ _ E) as [Hk | (Hle & t & Ht)].
    + destruct (Ascii.eqb_spec a c) as [->|Hne].
      * right. split; [lia|]. exists s. by rewrite Hk, Z.sub_diag.
      * by left.
    + right. split; [lia|]. exists t.
      replace (Z.to_nat (k - i)) with (S (Z.to_nat (k - (i + 1)))) by lia.
      exact Ht.
Qed.

(** The extension [splitext] returns is empty or starts with a dot. *)
Lemma splitext_ext_shape (p : string) :
  snd (splitext p) = "" \/ exists t, snd (splitext p) = String "." t.
Proof.
  unfold splitext.
  destruct (rfind "/" p <? rfind "." p) eqn:Hlt; simpl; [|by left].
  destruct (skip_leading_dots _ _ _ _); simpl; [|by left].
  right.
  destruct (rfind_from_spec "/" p 0 (-1) _ eq_refl) as [Hs | (Hs & _)];
    destruct (rfind_from_spec "." p 0 (-1) _ eq_refl) as [Hd | (Hd & t & Ht)];
    fold (rfind "/" p) in *; fold (rfind "." p) in *;
    try (exfalso; lia).
  - exists t. by rewrite Z.sub_0_r in Ht.
  - exists t. by rewrite Z.sub_0_r in Ht.
Qed.

(** The corrected name is absolute exactly when the name is. *)
Lemma corrected_same_start (name extension : string) :
  startswith (fst (splitext name) +:+ "." +:+ extension) "/"
  = startswith name "/".
Proof.
  rewrite !startswith_slash.
  pose proof (splitext_app name) as Happ.
  destruct (fst (splitext name)) as [|c r] eqn:Er.
  - simpl in Happ. rewrite <- Happ.
    destruct (splitext_ext_shape name) as [-> | [t ->]]; reflexivity.
  - rewrite <- Happ. reflexivity.
Qed.

Lemma join_inj (d a b : string) :
  startswith a "/" = startswith b "/" -> join d a = join d b -> a = b.
Proof.
  intros Hsame. destruct (startswith b "/") eqn:Hb.
  - unfold join. by rewrite Hsame, Hb.
  - by apply join_relative_inj.
Qed.

End SplitextFacts.

Section RenamePostconditions.
Import Py Doc Os OsPath Posix.

(** X5. When extension-fix mode corrects an attachment and renames
    behave as renames, the new name is the old root with the detected
    extension, it differs from the old name, the attachment carries it,
    the file is found under the new path with the content it had, and
    nothing is left under the old path. *)
Theorem X5_extension_corrected_postcondition :
  forall (FS : Type) (O : OS FS) (files_base_dir : string) (e e' : dict)
         (c c' : FixExtension.counters) (w0 w' : world FS) (old new : string),
    Spec.lawful_rename FS ->
    FixExtension.step files_base_dir e c w0
    = (e', c', w', FixExtension.Corrected old new) ->
    e !! "file" = Some (AStr old)
    /\ e' = <["file" := AStr new]> e
    /\ new <> old
    /\ (exists extension,
          filetype_guess (fs w0) (join files_base_dir old) = GuessKind extension
          /\ new = fst (splitext old) +:+ "." +:+ extension)
    /\ path_exists (fs w') (join files_base_dir new) = true
    /\ path_exists (fs w') (join files_base_dir old) = false
    /\ filetype_guess (fs w') (join files_base_dir new)
       = filetype_guess (fs w0) (join files_base_dir old).
Proof.
  intros FS O files_base_dir e e' c c' w0 w' old new Hlaw.
  unfold FixExtension.step.
  destruct (e !! "file") as [[| | |name]|] eqn:Ef; try discriminate.
  destruct (negb (path_exists _ _)); [discriminate|].
  destruct (filetype_guess _ _) as [| |extension] eqn:Hg; try discriminate.
  destruct (splitext name) as [root ext] eqn:Esp.
  destruct (negb (String.eqb (lower ext) (lower ("." +:+ extension)))) eqn:Hne;
    [|discriminate].
  destruct (do_rename _ _ _) as [w1 ok] eqn:Er.
  destruct ok; [|discriminate].
  apply do_rename_true in Er as (fs' & Hren & ->).
  intros E. inversion E; subst. simpl fs.
  assert (Hroot : root = fst (splitext old)) by (by rewrite Esp).
  assert (Hext : ext = snd (splitext old)) by (by rewrite Esp).
  assert (Hdiff : root +:+ "." +:+ extension <> old).
  { intros Heq. rewrite <- (splitext_app old), <- Hroot, <- Hext in Heq.
    apply append_inj in Heq. rewrite <- Heq, String.eqb_refl in Hne.
    discriminate. }
  assert (Hpath : join files_base_dir old
                  <> join files_base_dir (root +:+ "." +:+ extension)).
  { intros Heq. apply Hdiff. symmetry.
    apply (join_inj files_base_dir); [|done].
    rewrite Hroot. symmetry. apply corrected_same_start. }
  destruct (Hlaw _ _ _ _ Hren) as (Hdst & Hguess & Hsrc & _).
  split; [done|]. split; [done|]. split; [done|].
  split; [exists extension; by rewrite <- Hroot|].
  split; [done|]. split; [by apply Hsrc|]. by rewrite Hguess.
Qed.

Lemma X5_extension_corrected_postcondition_witness :
  Samples.image "photo.jpg" !! "file" = Some (AStr "photo.jpg")
  /\ fst (fst (fst Samples.ext_fix))
     = <["file" := AStr "photo.png"]> (Samples.image "photo.jpg")
  /\ "photo.png" <> "photo.jpg"
  /\ (exists extension,
        filetype_guess (fs (boot Samples.disk_png)) (join "cave" "photo.jpg")
        = GuessKind extension
        /\ "photo.png" = fst (splitext "photo.jpg") +:+ "." +:+ extension)
  /\ path_exists (fs (snd (fst Samples.ext_fix))) (join "cave" "photo.png") = true
  /\ path_exists (fs (snd (fst Samples.ext_fix))) (join "cave" "photo.jpg") = false
  /\ filetype_guess (fs (snd (fst Samples.ext_fix))) (join "cave" "photo.png")
     = filetype_guess (fs (boot Samples.disk_png)) (join "cave" "photo.jpg").
Proof.
  apply (X5_extension_corrected_postcondition disk posix "cave"
           (Samples.image "photo.jpg") (fst (fst (fst Samples.ext_fix)))
           (FixExtension.mk_counters 0 0) (snd (fst (fst Samples.ext_fix)))
           (boot Samples.disk_png) (snd (fst Samples.ext_fix))
           "photo.jpg" "photo.png").
  - exact posix_lawful.
  - vm_compute. reflexivity.
Defined.

(** X6. When full-reindex mode renames an attachment and renames behave
    as renames, the attachment carries the new name, the file is found
    under the new path with the content it had, and, unless the two
    paths are the same, nothing is left under the old path. *)
Theorem X6_reindex_renamed_postcondition :
  forall (FS : Type) (O : OS FS) (base_dir : string)
         (m : FixIndexAndAddTime.meta) (e e' : dict)
         (l l' : FixIndexAndAddTime.locals) (old new : string),
    Spec.lawful_rename FS ->
    FixIndexAndAddTime.step base_dir m e l
    = (e', l', FixIndexAndAddTime.Renamed old new) ->
    e !! "file" = Some (AStr old)
    /\ e' = <["file" := AStr new]> e
    /\ path_exists (fs (FixIndexAndAddTime.w l)) (join base_dir old) = true
    /\ path_exists (fs (FixIndexAndAddTime.w l')) (join base_dir new) = true
    /\ filetype_guess (fs (FixIndexAndAddTime.w l')) (join base_dir new)
       = filetype_guess (fs (FixIndexAndAddTime.w l)) (join base_dir old)
    /\ (join base_dir old <> join base_dir new ->
        path_exists (fs (FixIndexAndAddTime.w l')) (join base_dir old) = false)
    /\ FixIndexAndAddTime.entry_updated l' = true.
Proof.
  intros FS O base_dir m e e' l l' old new Hlaw.
  unfold FixIndexAndAddTime.step.
  destruct (FixIndexAndAddTime.is_media e); [|discriminate].
  destruct (e !! "file") as [[| | |name]|] eqn:Ef; try discriminate.
  destruct (path_exists _ _) eqn:Hex; [|discriminate].
  destruct (do_rename _ _ _) as [w1 ok] eqn:Er.
  destruct ok; [|discriminate].
  apply do_rename_true in Er as (fs' & Hren & ->).
  intros E. inversion E; subst. simpl.
  destruct (Hlaw _ _ _ _ Hren) as (Hdst & Hguess & Hsrc & _).
  repeat split; try done.
Qed.

Lemma X6_reindex_renamed_postcondition_witness :
  Samples.image "old.png" !! "file" = Some (AStr "old.png")
  /\ fst (fst Samples.reindex_old)
     = <["file" := AStr "42-1_7-99_1690000000000.png"]> (Samples.image "old.png")
  /\ path_exists (fs (FixIndexAndAddTime.w Samples.locals_old))
       (join "cave" "old.png") = true
  /\ path_exists (fs (FixIndexAndAddTime.w (snd (fst Samples.reindex_old))))
       (join "cave" "42-1_7-99_1690000000000.png") = true
  /\ filetype_guess (fs (FixIndexAndAddTime.w (snd (fst Samples.reindex_old))))
       (join "cave" "42-1_7-99_1690000000000.png")
     = filetype_guess (fs (FixIndexAndAddTime.w Samples.locals_old))
         (join "cave" "old.png")
  /\ (join "cave" "old.png" <> join "cave" "42-1_7-99_1690000000000.png" ->
      path_exists (fs (FixIndexAndAddTime.w (snd (fst Samples.reindex_old))))
        (join "cave" "old.png") = false)
  /\ FixIndexAndAddTime.entry_updated (snd (fst Samples.reindex_old)) = true.
Proof.
  apply (X6_reindex_renamed_postcondition disk posix "cave" Samples.meta42
           (Samples.image "old.png") (fst (fst Samples.reindex_old))
           Samples.locals_old (snd (fst Samples.reindex_old))
           "old.png" "42-1_7-99_1690000000000.png").
  - exact posix_lawful.
  - vm_compute. reflexivity.
Defined.

End RenamePostconditions.
